(** * Civic issue tracker: votes, listing, statistics and admin status updates

    A shallow embedding of [server/models/Issue.js], [server/routes/issues.js]
    and [server/routes/admin.js] (with the account deletion of the users
    routes), and of the two button predicates of
    [client/src/pages/IssueDetail.tsx].

    Conventions.
    - An [ObjectId] is represented by its hexadecimal string, so that
      [toString] is the identity and [a.toString() === b.toString()] is
      equality of identifiers.  The [:id] of a path is any string: when no
      document is stored under it, a handler answers "not found" only if
      the string casts to an identifier, and from its catch branch
      otherwise.
    - A [Date] is its number of milliseconds since the epoch, in [Z];
      [new Date()] and [Date.now] read a clock value [now] that every
      operation receives as an argument.
    - A collection is the list of its documents in natural order.
    - JavaScript numbers that hold coordinates are binary64 floats
      ([PrimFloat]); counters and array lengths are integers in [Z]; the
      numbers of the aggregation pipeline are exact rationals in [Q].
    - Schema fields that none of the modelled operations reads or writes
      (images, attachments, duplicateOf, relatedIssues,
      estimatedResolutionDate, city, state, zipCode) are left out of the
      records, and [populate] is not modelled. *)

From Stdlib Require Import ZArith QArith Floats Permutation.
From stdpp Require Import base list gmap strings sorting.

#[local] Open Scope Z_scope.
#[local] Open Scope string_scope.

(** ** server/models/Issue.js *)

Module IssueModel.

Definition ObjectId := string.
Definition Date := Z.

Definition toString (o : ObjectId) : string := o.

(** An element of [votes.upvotes] / [votes.downvotes]. *)
Record Vote := mkVote { user : ObjectId; votedAt : Date }.

Record Votes := mkVotes { upvotes : list Vote; downvotes : list Vote }.

Record Comment := mkComment {
  c_user : ObjectId; content : string; isOfficial : bool; c_createdAt : Date }.

Record Coordinates := mkCoordinates { lat : float; lng : float }.

Record Location := mkLocation { address : string; coordinates : Coordinates }.

Record Issue := mkIssue {
  _id : ObjectId;
  title : string;
  description : string;
  category : string;
  priority : string;
  status : string;
  reporter : ObjectId;
  assignedTo : option ObjectId;
  location : Location;
  votes : Votes;
  comments : list Comment;
  tags : list string;
  actualResolutionDate : option Date;
  resolutionNotes : option string;
  isPublic : bool;
  isAnonymous : bool;
  viewCount : Z;
  lastActivity : Date;
  createdAt : Date;
  updatedAt : Date
}.

(** Field assignments [this.votes = ...], [this.lastActivity = ...],
    [this.comments.push(...)] and the [updatedAt] stamp of [save]. *)
Definition set_votes (v : Votes) (i : Issue) : Issue :=
  mkIssue (_id i) (title i) (description i) (category i) (priority i)
    (status i) (reporter i) (assignedTo i) (location i) v (comments i)
    (tags i) (actualResolutionDate i) (resolutionNotes i) (isPublic i)
    (isAnonymous i) (viewCount i) (lastActivity i) (createdAt i) (updatedAt i).

Definition set_lastActivity (d : Date) (i : Issue) : Issue :=
  mkIssue (_id i) (title i) (description i) (category i) (priority i)
    (status i) (reporter i) (assignedTo i) (location i) (votes i) (comments i)
    (tags i) (actualResolutionDate i) (resolutionNotes i) (isPublic i)
    (isAnonymous i) (viewCount i) d (createdAt i) (updatedAt i).

Definition set_comments (c : list Comment) (i : Issue) : Issue :=
  mkIssue (_id i) (title i) (description i) (category i) (priority i)
    (status i) (reporter i) (assignedTo i) (location i) (votes i) c
    (tags i) (actualResolutionDate i) (resolutionNotes i) (isPublic i)
    (isAnonymous i) (viewCount i) (lastActivity i) (createdAt i) (updatedAt i).

Definition set_updatedAt (d : Date) (i : Issue) : Issue :=
  mkIssue (_id i) (title i) (description i) (category i) (priority i)
    (status i) (reporter i) (assignedTo i) (location i) (votes i) (comments i)
    (tags i) (actualResolutionDate i) (resolutionNotes i) (isPublic i)
    (isAnonymous i) (viewCount i) (lastActivity i) (createdAt i) d.

(** The collection behind the [Issue] model. *)
Definition Collection := list Issue.

(** [doc.save()]: stamps [updatedAt] and writes the document over the
    stored one with the same [_id], or appends it when there is none.  The
    result is the saved document and the new collection. *)
Fixpoint store (doc : Issue) (db : Collection) : Collection :=
  match db with
  | [] => [doc]
  | d :: rest =>
      if bool_decide (_id d = _id doc) then doc :: rest
      else d :: store doc rest
  end.

Definition save (now : Date) (this : Issue) (db : Collection)
  : Issue * Collection :=
  let this' := set_updatedAt now this in
  (this', store this' db).

(** [Issue.findById(id)], for an [id] that casts to an identifier: the
    stored document, or [None] ([null]) when there is none. *)
Definition findById (id : ObjectId) (db : Collection) : option Issue :=
  List.find (fun d => bool_decide (_id d = id)) db.

(** The cast of a string to an identifier, which [findById],
    [findByIdAndUpdate] and [findByIdAndDelete] apply to their argument
    before they look anything up: it succeeds on twenty-four hexadecimal
    digits, and the query is rejected with a [CastError] otherwise (as
    the driver does since it stopped reading a string of twelve
    characters as twelve bytes).  The identifier of a stored document has
    passed it when the document was written, so the handlers consult it
    only where the lookup finds nothing. *)
Definition isHexChar (c : Ascii.ascii) : bool :=
  let n := Ascii.nat_of_ascii c in
  ((48 <=? n) && (n <=? 57) || (65 <=? n) && (n <=? 70)
   || (97 <=? n) && (n <=? 102))%nat.

Definition castsToObjectId (id : string) : bool :=
  (String.length id =? 24)%nat
  && forallb isHexChar (String.list_ascii_of_string id).

(** The virtual [voteCount]: a getter over the two arrays, not a field. *)
Definition voteCount (this : Issue) : Z :=
  Z.of_nat (length (upvotes (votes this)))
  - Z.of_nat (length (downvotes (votes this))).

(** [Array.prototype.some] *)
Definition some {A} (p : A -> bool) (l : list A) : bool := existsb p l.

Record UserVote := mkUserVote { upvoted : bool; downvoted : bool }.

Definition hasUserVoted (this : Issue) (userId : ObjectId) : UserVote :=
  {| upvoted :=
       some (fun vote => bool_decide (toString (user vote) = toString userId))
            (upvotes (votes this));
     downvoted :=
       some (fun vote => bool_decide (toString (user vote) = toString userId))
            (downvotes (votes this)) |}.

(** [arr.filter(vote => vote.user.toString() !== userId.toString())] *)
Definition without (userId : ObjectId) (l : list Vote) : list Vote :=
  filter (fun vote => toString (user vote) <> toString userId) l.

(** [arr.push({ user: userId })]; the [votedAt] default is the clock. *)
Definition push_vote (userId : ObjectId) (now : Date) (l : list Vote)
  : list Vote :=
  l ++ [mkVote userId now].

(** Lines 192-214 of [addVote]: the mutation of [this] before [save]. *)
Definition addVote_mutation (this : Issue) (userId : ObjectId)
    (voteType : string) (now : Date) : Issue :=
  let '(mkUserVote upvoted downvoted) := hasUserVoted this userId in
  let this1 :=
    if bool_decide (voteType = "upvote") then
      if upvoted then
        set_votes (mkVotes (without userId (upvotes (votes this)))
                           (downvotes (votes this))) this
      else
        let this0 :=
          if downvoted then
            set_votes (mkVotes (upvotes (votes this))
                               (without userId (downvotes (votes this)))) this
          else this in
        set_votes (mkVotes (push_vote userId now (upvotes (votes this0)))
                           (downvotes (votes this0))) this0
    else if bool_decide (voteType = "downvote") then
      if downvoted then
        set_votes (mkVotes (upvotes (votes this))
                           (without userId (downvotes (votes this)))) this
      else
        let this0 :=
          if upvoted then
            set_votes (mkVotes (without userId (upvotes (votes this)))
                               (downvotes (votes this))) this
          else this in
        set_votes (mkVotes (upvotes (votes this0))
                           (push_vote userId now (downvotes (votes this0)))) this0
    else this in
  set_lastActivity now this1.

(** What one call leaves in the two arrays, by the three branches: the
    closed form of [addVote_mutation] on [votes]. *)
Definition votesAfter (vs : Votes) (u : ObjectId) (voteType : string)
    (now : Date) : Votes :=
  if bool_decide (voteType = "upvote") then
    if bool_decide (u ∈ user <$> upvotes vs)
    then mkVotes (without u (upvotes vs)) (downvotes vs)
    else mkVotes (push_vote u now (upvotes vs)) (without u (downvotes vs))
  else if bool_decide (voteType = "downvote") then
    if bool_decide (u ∈ user <$> downvotes vs)
    then mkVotes (upvotes vs) (without u (downvotes vs))
    else mkVotes (without u (upvotes vs)) (push_vote u now (downvotes vs))
  else vs.

(** [issue.addVote(userId, voteType)]: mutate, then [return this.save()]. *)
Definition addVote (this : Issue) (userId : ObjectId) (voteType : string)
    (now : Date) (db : Collection) : Issue * Collection :=
  save now (addVote_mutation this userId voteType now) db.

(** [issue.addComment(userId, content, isOfficial)] *)
Definition addComment (this : Issue) (userId : ObjectId) (text : string)
    (official : bool) (now : Date) (db : Collection) : Issue * Collection :=
  let this1 :=
    set_comments (comments this ++ [mkComment userId text official now]) this in
  save now (set_lastActivity now this1) db.

(** A run of vote calls on one document, each [(user, voteType, time)]. *)
Fixpoint addVotes (this : Issue) (calls : list (ObjectId * string * Date))
    (db : Collection) : Issue * Collection :=
  match calls with
  | [] => (this, db)
  | (u, vt, now) :: rest =>
      let '(this', db') := addVote this u vt now db in
      addVotes this' rest db'
  end.

(** The users of the two arrays, as lists and as sets. *)
Definition upvoters (i : Issue) : list ObjectId := user <$> upvotes (votes i).
Definition downvoters (i : Issue) : list ObjectId :=
  user <$> downvotes (votes i).

Definition upvoterSet (i : Issue) : gset string := list_to_set (upvoters i).
Definition downvoterSet (i : Issue) : gset string :=
  list_to_set (downvoters i).

(** No user is in both arrays. *)
Definition atMostOneMembership (i : Issue) : Prop :=
  forall u : ObjectId, ~ (u ∈ upvoters i /\ u ∈ downvoters i).

(** No user is twice in one array. *)
Definition noRepeatedVoter (i : Issue) : Prop :=
  NoDup (upvoters i) /\ NoDup (downvoters i).

(** [new Issue({...})] followed by the schema defaults, as in [POST /]. *)
Definition newIssue (id : ObjectId) (title description category priority : string)
    (loc : Location) (tags : list string) (anonymous : bool)
    (reporter : ObjectId) (now : Date) : Issue :=
  mkIssue id title description category priority "Open" reporter None loc
    (mkVotes [] []) [] tags None None true anonymous 0 now now now.

End IssueModel.

(** ** The document store: queries and aggregation

    The parts of Mongoose and MongoDB that the routes call.  Four
    platform functions are left open and taken as parameters wherever they
    are used: [RegExp_i pattern] is [new RegExp(pattern, 'i')], [None] when
    the pattern does not compile, otherwise its [test]; [sortDocs field
    direction] is the ordering [.sort({field: direction})] produces;
    [sortByCount] is the stage [{ $sort: { count: -1 } }]; [Math_cos] is
    [Math.cos]. *)

Module Mongo.
Import IssueModel.

(** The [filter] object of the listing routes: each key is present or
    not; [f_or] holds the search text of the three-way [$or]. *)
Record Filter := mkFilter {
  f_isPublic : option bool;
  f_category : option string;
  f_status : option string;
  f_priority : option string;
  f_or : option string
}.

(** The conditions added by [query.where({...})]: a [$gte] and a [$lte]
    bound on each coordinate. *)
Record GeoBox := mkGeoBox {
  lat_gte : float; lat_lte : float; lng_gte : float; lng_lte : float }.

Record Query := mkQuery {
  q_filter : Filter;
  q_where : option GeoBox;
  q_sort : string * Z;
  q_skip : Z;
  q_limit : Z
}.

(** [{ key: value }] on an optional key: no condition when absent. *)
Definition eqCond {A} `{EqDecision A} (c : option A) (v : A) : bool :=
  match c with
  | None => true
  | Some x => bool_decide (v = x)
  end.

Section Matching.
Variable RegExp_i : string -> option (string -> bool).

(** [$or: [{title: {$regex}}, {description: {$regex}}, {tags: {$in: [re]}}]] *)
Definition orCond (c : option string) (d : Issue) : bool :=
  match c with
  | None => true
  | Some search =>
      match RegExp_i search with
      | None => false
      | Some test =>
          test (title d) || test (description d) || existsb test (tags d)
      end
  end.

Definition matchesFilter (f : Filter) (d : Issue) : bool :=
  eqCond (f_isPublic f) (isPublic d)
  && eqCond (f_category f) (category d)
  && eqCond (f_status f) (status d)
  && eqCond (f_priority f) (priority d)
  && orCond (f_or f) d.

(** [$gte: b] is [b <= field], [$lte: b] is [field <= b]. *)
Definition matchesGeo (g : GeoBox) (d : Issue) : bool :=
  let c := coordinates (location d) in
  PrimFloat.leb (lat_gte g) (lat c) && PrimFloat.leb (lat c) (lat_lte g)
  && PrimFloat.leb (lng_gte g) (lng c) && PrimFloat.leb (lng c) (lng_lte g).

Definition matchesWhere (w : option GeoBox) (d : Issue) : bool :=
  match w with
  | None => true
  | Some g => matchesGeo g d
  end.

(** The conditions of a query: those of [find(filter)] merged with those
    of [where]. *)
Definition matchesQuery (q : Query) (d : Issue) : bool :=
  matchesFilter (q_filter q) d && matchesWhere (q_where q) d.

(** [Issue.countDocuments(filter)] *)
Definition countDocuments (f : Filter) (db : Collection) : Z :=
  Z.of_nat (length (List.filter (matchesFilter f) db)).

Variable sortDocs : string -> Z -> list Issue -> list Issue.

(** The documents a query selects, in its sort order, before the window. *)
Definition selected (q : Query) (db : Collection) : list Issue :=
  sortDocs (fst (q_sort q)) (snd (q_sort q))
    (List.filter (matchesQuery q) db).

(** [query.exec()]: conditions, sort, skip, limit. *)
Definition exec (q : Query) (db : Collection) : list Issue :=
  take (Z.to_nat (q_limit q)) (drop (Z.to_nat (q_skip q)) (selected q db)).

End Matching.

(** The same query with another window. *)
Definition withWindow (q : Query) (skip limit : Z) : Query :=
  mkQuery (q_filter q) (q_where q) (q_sort q) skip limit.

(** [Math.ceil(a / b)] on a count [a] and a positive [b]. *)
Definition ceilDiv (a b : Z) : Z := (a + b - 1) / b.

(** *** Aggregation values and operators *)

Inductive bson :=
| BMissing
| BNull
| BBool (b : bool)
| BNum (q : Q)
| BDate (ms : Z)
| BStr (s : string).

(** ['$path'] on an issue; a field that was never set is missing. *)
Definition fieldOf (d : Issue) (path : string) : bson :=
  if bool_decide (path = "status") then BStr (status d)
  else if bool_decide (path = "category") then BStr (category d)
  else if bool_decide (path = "priority") then BStr (priority d)
  else if bool_decide (path = "createdAt") then BDate (createdAt d)
  else if bool_decide (path = "actualResolutionDate") then
    match actualResolutionDate d with
    | Some r => BDate r
    | None => BMissing
    end
  else BMissing.

(** Equality of values as [$eq] sees it: a missing field is not [null]. *)
Definition bson_eqb (a b : bson) : bool :=
  match a, b with
  | BMissing, BMissing => true
  | BNull, BNull => true
  | BBool x, BBool y => Bool.eqb x y
  | BNum x, BNum y => Qeq_bool x y
  | BDate x, BDate y => Z.eqb x y
  | BStr x, BStr y => bool_decide (x = y)
  | _, _ => false
  end.

Definition op_eq (a b : bson) : bson := BBool (bson_eqb a b).
Definition op_ne (a b : bson) : bson := BBool (negb (bson_eqb a b)).

(** The truth of a [$cond] test. *)
Definition truthy (v : bson) : bool :=
  match v with
  | BMissing | BNull => false
  | BBool b => b
  | BNum q => negb (Qeq_bool q 0)
  | BDate _ | BStr _ => true
  end.

Definition nullish (v : bson) : bool :=
  match v with
  | BMissing | BNull => true
  | _ => false
  end.

(** [$subtract]: [null] when an operand is null or missing, milliseconds
    for two dates, the difference for two numbers.  [None] stands for a
    failing aggregation and for operand types that no field of an issue
    produces. *)
Definition op_subtract (a b : bson) : option bson :=
  if nullish a || nullish b then Some BNull
  else match a, b with
       | BNum x, BNum y => Some (BNum (x - y))
       | BDate x, BDate y => Some (BNum (inject_Z (x - y)))
       | _, _ => None
       end.

(** [$divide]: [null] when an operand is null or missing; division by
    zero fails. *)
Definition op_divide (a b : bson) : option bson :=
  if nullish a || nullish b then Some BNull
  else match a, b with
       | BNum x, BNum y =>
           if Qeq_bool y 0 then None else Some (BNum (x / y))
       | _, _ => None
       end.

(** The numeric values of a list: what [$sum] and [$avg] look at. *)
Fixpoint numerics (vs : list bson) : list Q :=
  match vs with
  | [] => []
  | BNum q :: rest => q :: numerics rest
  | _ :: rest => numerics rest
  end.

Definition Qsum (qs : list Q) : Q := fold_right Qplus 0%Q qs.

(** [$sum] *)
Definition acc_sum (vs : list bson) : bson := BNum (Qsum (numerics vs)).

(** [$avg]: the mean of the numeric values, [null] when there is none. *)
Definition acc_avg (vs : list bson) : bson :=
  match numerics vs with
  | [] => BNull
  | qs => BNum (Qred (Qsum qs / inject_Z (Z.of_nat (length qs))))
  end.

(** Evaluate an expression on every document; one failure fails all. *)
Fixpoint evalAll {A} (f : A -> option bson) (docs : list A)
  : option (list bson) :=
  match docs with
  | [] => Some []
  | d :: rest =>
      match f d, evalAll f rest with
      | Some v, Some vs => Some (v :: vs)
      | _, _ => None
      end
  end.

(** [{ $group: { _id: '$field', count: { $sum: 1 } } }]: the groups in
    order of first appearance. *)
Fixpoint bump (k : string) (groups : list (string * Z)) : list (string * Z) :=
  match groups with
  | [] => [(k, 1)]
  | (k', n) :: rest =>
      if bool_decide (k' = k) then (k', n + 1) :: rest
      else (k', n) :: bump k rest
  end.

Definition groupCount (key : Issue -> string) (docs : list Issue)
  : list (string * Z) :=
  fold_left (fun g d => bump (key d) g) docs [].

End Mongo.

(** ** Responses *)

Module Http.
Import IssueModel Mongo.

Record Pagination := mkPagination {
  currentPage : Z; totalPages : Z; totalItems : Z; itemsPerPage : Z }.

Record Overview := mkOverview {
  totalIssues : bson;
  openIssues : bson;
  inProgressIssues : bson;
  resolvedIssues : bson;
  avgResolutionTime : bson
}.

Inductive Body :=
| ErrorsBody
| MessageBody (message : string)
| ListBody (issues : list Issue) (pagination : Pagination)
| IssueBody (message : string) (issue : Issue)
| VoteBody (message : string) (count : Z) (userVote : UserVote)
| StatsBody (overview : Overview) (categoryStats : list (string * Z)).

(** [res.status(code).json(body)]; [res.json(body)] has status 200. *)
Record Response := Json { code : Z; body : Body }.

End Http.

(** ** server/routes/issues.js *)

Module IssuesRoutes.
Import IssueModel Mongo Http.

Definition categories : list string :=
  ["Roads & Transportation"; "Public Safety"; "Environment"; "Utilities";
   "Parks & Recreation"; "Housing"; "Education"; "Healthcare"; "Other"].
Definition statuses : list string :=
  ["Open"; "In Progress"; "Under Review"; "Resolved"; "Closed"; "Rejected"].
Definition priorities : list string := ["Low"; "Medium"; "High"; "Critical"].

(** [req.query] of [GET /api/issues].  [None] is a parameter that the
    request does not give.  [page] and [limit] hold the integer that the
    string spells; a string that spells none (the empty one too) fails the
    validation and has no place in the record.  [lat] and [lng] hold
    [parseFloat] of a string that is not empty ([lat && lng] takes the
    empty string for an absent one), and [radius] the number that the
    division coerces its string to, which is 0 for the empty string.  The
    strings are kept as they are: an empty [category], [status], [priority],
    [sortBy] or [sortOrder] fails the validation, an empty [search] adds no
    condition. *)
Record ListParams := mkListParams {
  p_page : option Z;
  p_limit : option Z;
  p_category : option string;
  p_status : option string;
  p_priority : option string;
  p_search : option string;
  p_sortBy : option string;
  p_sortOrder : option string;
  p_lat : option float;
  p_lng : option float;
  p_radius : option float
}.

(** [query(name).optional().isIn(values)] *)
Definition optionalIsIn (v : option string) (values : list string) : bool :=
  match v with
  | None => true
  | Some s => bool_decide (s ∈ values)
  end.

(** [query(name).optional().isInt({ min, max })] *)
Definition optionalIsInt (v : option Z) (min : Z) (max : option Z) : bool :=
  match v with
  | None => true
  | Some n =>
      (min <=? n)%Z && match max with Some m => (n <=? m)%Z | None => true end
  end.

Definition validListParams (p : ListParams) : bool :=
  optionalIsInt (p_page p) 1 None
  && optionalIsInt (p_limit p) 1 (Some 50)
  && optionalIsIn (p_category p) categories
  && optionalIsIn (p_status p) statuses
  && optionalIsIn (p_priority p) priorities
  && optionalIsIn (p_sortBy p)
       ["createdAt"; "voteCount"; "priority"; "lastActivity"]
  && optionalIsIn (p_sortOrder p) ["asc"; "desc"].

(** [if (s)] on an optional string: absent and empty are false. *)
Definition present (v : option string) : option string :=
  match v with
  | Some s => if bool_decide (s = "") then None else Some s
  | None => None
  end.

(** Lines 45-58: the filter object. *)
Definition buildFilter (p : ListParams) : Filter :=
  {| f_isPublic := Some true;
     f_category := present (p_category p);
     f_status := present (p_status p);
     f_priority := present (p_priority p);
     f_or := present (p_search p) |}.

Definition Math_PI : float := 0x1.921fb54442d18p+1%float.

Section Handlers.
Variable RegExp_i : string -> option (string -> bool).
Variable sortDocs : string -> Z -> list Issue -> list Issue.
Variable sortByCount : list (string * Z) -> list (string * Z).
Variable Math_cos : float -> float.

(** Lines 79-88: the bounds of the bounding box. *)
Definition geoBox (userLat userLng maxDistance : float) : GeoBox :=
  {| lat_gte := userLat - maxDistance / 111;
     lat_lte := userLat + maxDistance / 111;
     lng_gte :=
       userLng - maxDistance / (111 * Math_cos (userLat * Math_PI / 180));
     lng_lte :=
       userLng + maxDistance / (111 * Math_cos (userLat * Math_PI / 180)) |}%float.

(** Lines 72-89: the box is added when both [lat] and [lng] are given. *)
Definition geoWhere (p : ListParams) : option GeoBox :=
  match p_lat p, p_lng p with
  | Some userLat, Some userLng =>
      Some (geoBox userLat userLng (default 10%float (p_radius p)))
  | _, _ => None
  end.

(** The query the handler builds: [find(filter).sort(sort)], the optional
    [where], then [skip] and [limit]. *)
Definition buildQuery (p : ListParams) : Query :=
  let page := default 1 (p_page p) in
  let limit := default 10 (p_limit p) in
  {| q_filter := buildFilter p;
     q_where := geoWhere p;
     q_sort := (default "createdAt" (p_sortBy p),
                if bool_decide (p_sortOrder p = Some "asc") then 1 else -1);
     q_skip := (page - 1) * limit;
     q_limit := limit |}.

(** Does the search text compile as a regular expression? *)
Definition searchCompiles (p : ListParams) : bool :=
  match present (p_search p) with
  | None => true
  | Some search => bool_decide (is_Some (RegExp_i search))
  end.

(** [GET /api/issues].  [db] is [None] when the store cannot be reached,
    so that every operation on it throws. *)
Definition get_issues (p : ListParams) (db : option Collection) : Response :=
  if negb (validListParams p) then Json 400 ErrorsBody
  else if negb (searchCompiles p) then
    Json 500 (MessageBody "Server error while fetching issues")
  else
    match db with
    | None => Json 500 (MessageBody "Server error while fetching issues")
    | Some docs =>
        let filter := buildFilter p in
        let issues := exec RegExp_i sortDocs (buildQuery p) docs in
        let total := countDocuments RegExp_i filter docs in
        let page := default 1 (p_page p) in
        let limit := default 10 (p_limit p) in
        Json 200 (ListBody issues
                    {| currentPage := page;
                       totalPages := ceilDiv total limit;
                       totalItems := total;
                       itemsPerPage := limit |})
    end.

(** [POST /api/issues/:id/vote] for the authenticated user [userId]. *)
Definition post_issue_vote (id : ObjectId) (userId : ObjectId)
    (voteType : option string) (now : Date) (db : option Collection)
  : Response * option Collection :=
  if negb (bool_decide (voteType = Some "upvote")
           || bool_decide (voteType = Some "downvote"))
  then (Json 400 ErrorsBody, db)
  else
    match db with
    | None => (Json 500 (MessageBody "Server error while voting"), db)
    | Some docs =>
        match findById id docs with
        | None =>
            if castsToObjectId id
            then (Json 404 (MessageBody "Issue not found"), db)
            else (Json 500 (MessageBody "Server error while voting"), db)
        | Some issue =>
            let '(issue', docs') :=
              addVote issue userId (default "" voteType) now docs in
            (Json 200 (VoteBody "Vote recorded successfully"
                         (voteCount issue') (hasUserVoted issue' userId)),
             Some docs')
        end
    end.

(** The zeroed overview of the statistics route. *)
Definition zeroOverview : Overview :=
  {| totalIssues := BNum 0; openIssues := BNum 0; inProgressIssues := BNum 0;
     resolvedIssues := BNum 0; avgResolutionTime := BNum 0 |}.

(** [{ $cond: [{ $eq: ['$status', s] }, 1, 0] }] *)
Definition statusIs (s : string) (d : Issue) : option bson :=
  Some (if truthy (op_eq (fieldOf d "status") (BStr s))
        then BNum 1 else BNum 0).

(** Lines 377-388: the argument of [$avg]. *)
Definition resolutionDays (d : Issue) : option bson :=
  if truthy (op_ne (fieldOf d "actualResolutionDate") BNull) then
    match op_subtract (fieldOf d "actualResolutionDate")
                      (fieldOf d "createdAt") with
    | Some diff => op_divide diff (BNum (inject_Z (1000 * 60 * 60 * 24)))
    | None => None
    end
  else Some BNull.

(** Lines 362-392: [$group] with [_id: null] makes one result of a
    non-empty collection and none of an empty one. *)
Definition overviewStats (docs : list Issue) : option (list Overview) :=
  match docs with
  | [] => Some []
  | _ =>
      match evalAll (fun _ => Some (BNum 1)) docs,
            evalAll (statusIs "Open") docs,
            evalAll (statusIs "In Progress") docs,
            evalAll (statusIs "Resolved") docs,
            evalAll resolutionDays docs with
      | Some ones, Some opens, Some inProgress, Some resolved, Some days =>
          Some [ {| totalIssues := acc_sum ones;
                    openIssues := acc_sum opens;
                    inProgressIssues := acc_sum inProgress;
                    resolvedIssues := acc_sum resolved;
                    avgResolutionTime := acc_avg days |} ]
      | _, _, _, _, _ => None
      end
  end.

(** [GET /api/issues/stats/overview] *)
Definition get_stats_overview (readyState : Z) (db : option Collection)
  : Response :=
  if negb (readyState =? 1)%Z then Json 200 (StatsBody zeroOverview [])
  else
    match db with
    | None => Json 200 (StatsBody zeroOverview [])
    | Some docs =>
        match overviewStats docs with
        | None => Json 200 (StatsBody zeroOverview [])
        | Some stats =>
            let categoryStats := sortByCount (groupCount category docs) in
            Json 200 (StatsBody (default zeroOverview (head stats))
                                categoryStats)
        end
    end.

End Handlers.
End IssuesRoutes.

(** ** server/routes/admin.js *)

Module AdminRoutes.
Import IssueModel Mongo Http IssuesRoutes.

(** [req.body] of [PUT /api/admin/issues/:id/status] *)
Record StatusBody := mkStatusBody {
  b_status : option string;
  b_assignedTo : option string;
  b_resolutionNotes : option string
}.

Definition isHexDigit (c : Ascii.ascii) : bool :=
  let n := Ascii.nat_of_ascii c in
  ((48 <=? n) && (n <=? 57) || (65 <=? n) && (n <=? 70)
   || (97 <=? n) && (n <=? 102))%nat.

(** [isMongoId]: twenty-four hexadecimal digits.  (Recent versions of
    the validator also let through twenty-two digits after [0x] or [0h],
    which the cast of the update then refuses; no statement below is
    about such a body.) *)
Definition isMongoId (s : string) : bool :=
  (String.length s =? 24)%nat && forallb isHexDigit (String.list_ascii_of_string s).

Definition validStatusBody (b : StatusBody) : bool :=
  match b_status b with
  | None => false
  | Some s => bool_decide (s ∈ statuses)
  end
  && match b_assignedTo b with
     | None => true
     | Some a => isMongoId a
     end.

(** The update document: a key is set or absent. *)
Record UpdateData := mkUpdateData {
  u_status : option string;
  u_lastActivity : option Date;
  u_assignedTo : option ObjectId;
  u_actualResolutionDate : option Date;
  u_resolutionNotes : option string
}.

(** Lines 147-159: the update built from the body. *)
Definition statusUpdate (b : StatusBody) (now : Date) : UpdateData :=
  let status := default "" (b_status b) in
  let resolving :=
    bool_decide (status = "Resolved") || bool_decide (status = "Closed") in
  {| u_status := Some status;
     u_lastActivity := Some now;
     u_assignedTo := present (b_assignedTo b);
     u_actualResolutionDate := if resolving then Some now else None;
     u_resolutionNotes :=
       if resolving then present (b_resolutionNotes b) else None |}.

(** The keys of the update are written, every other field stays; the
    [timestamps] option stamps [updatedAt]. *)
Definition applyUpdate (u : UpdateData) (now : Date) (d : Issue) : Issue :=
  mkIssue (_id d) (title d) (description d) (category d) (priority d)
    (default (status d) (u_status u)) (reporter d)
    (match u_assignedTo u with Some a => Some a | None => assignedTo d end)
    (location d) (votes d) (comments d) (tags d)
    (match u_actualResolutionDate u with
     | Some r => Some r
     | None => actualResolutionDate d
     end)
    (match u_resolutionNotes u with
     | Some n => Some n
     | None => resolutionNotes d
     end)
    (isPublic d) (isAnonymous d) (viewCount d)
    (default (lastActivity d) (u_lastActivity u)) (createdAt d) now.

(** [Issue.findByIdAndUpdate(id, update, { new: true })]: the updated
    document, or [None] when no document has the id. *)
Fixpoint findByIdAndUpdate (id : ObjectId) (u : UpdateData) (now : Date)
    (db : Collection) : option Issue * Collection :=
  match db with
  | [] => (None, [])
  | d :: rest =>
      if bool_decide (_id d = id) then
        let d' := applyUpdate u now d in (Some d', d' :: rest)
      else
        let '(r, rest') := findByIdAndUpdate id u now rest in (r, d :: rest')
  end.

(** [PUT /api/admin/issues/:id/status], past [adminAuth]. *)
Definition put_admin_issue_status (id : ObjectId) (b : StatusBody)
    (now : Date) (db : option Collection) : Response * option Collection :=
  if negb (validStatusBody b) then (Json 400 ErrorsBody, db)
  else
    match db with
    | None =>
        (Json 500 (MessageBody "Server error while updating issue status"), db)
    | Some docs =>
        match findByIdAndUpdate id (statusUpdate b now) now docs with
        | (None, _) =>
            if castsToObjectId id
            then (Json 404 (MessageBody "Issue not found"), db)
            else
              (Json 500
                 (MessageBody "Server error while updating issue status"), db)
        | (Some issue, docs') =>
            (Json 200 (IssueBody "Issue status updated successfully" issue),
             Some docs')
        end
    end.

End AdminRoutes.

(** ** The catch branch of every route handler *)

Module Endpoints.
Import Http IssuesRoutes.

Inductive Endpoint :=
| GetIssues | GetIssue | PostIssue | PutIssue | DeleteIssue
| PostIssueVote | PostIssueComment | GetStatsOverview
| GetUsersProfile | GetUsersIssues | GetUsersVotedIssues
| PutUsersPreferences | DeleteUsersAccount
| GetAdminDashboard | GetAdminIssues | PutAdminIssueStatus
| PutAdminIssuePriority | GetAdminUsers | PutAdminUserRole
| DeleteAdminUser.

(** What the handler answers when an operation on the store throws. *)
Definition onStoreFailure (e : Endpoint) : Response :=
  match e with
  | GetIssues => Json 500 (MessageBody "Server error while fetching issues")
  | GetIssue => Json 500 (MessageBody "Server error while fetching issue")
  | PostIssue => Json 500 (MessageBody "Server error while creating issue")
  | PutIssue => Json 500 (MessageBody "Server error while updating issue")
  | DeleteIssue => Json 500 (MessageBody "Server error while deleting issue")
  | PostIssueVote => Json 500 (MessageBody "Server error while voting")
  | PostIssueComment =>
      Json 500 (MessageBody "Server error while adding comment")
  | GetStatsOverview => Json 200 (StatsBody zeroOverview [])
  | GetUsersProfile =>
      Json 500 (MessageBody "Server error while fetching profile")
  | GetUsersIssues =>
      Json 500 (MessageBody "Server error while fetching user issues")
  | GetUsersVotedIssues =>
      Json 500 (MessageBody "Server error while fetching voted issues")
  | PutUsersPreferences =>
      Json 500 (MessageBody "Server error while updating preferences")
  | DeleteUsersAccount =>
      Json 500 (MessageBody "Server error while deleting account")
  | GetAdminDashboard =>
      Json 500 (MessageBody "Server error while fetching dashboard data")
  | GetAdminIssues => Json 500 (MessageBody "Server error while fetching issues")
  | PutAdminIssueStatus =>
      Json 500 (MessageBody "Server error while updating issue status")
  | PutAdminIssuePriority =>
      Json 500 (MessageBody "Server error while updating issue priority")
  | GetAdminUsers => Json 500 (MessageBody "Server error while fetching users")
  | PutAdminUserRole =>
      Json 500 (MessageBody "Server error while updating user role")
  | DeleteAdminUser => Json 500 (MessageBody "Server error while deleting user")
  end.

End Endpoints.

(** ** server/routes/issues.js: the single-issue handlers

    [trim] is the [trim()] sanitizer of the validation chain, which is also
    the [trim: true] setter of the schema; [schemaSet] is what the string
    setters of the schema make of a value that an update writes.  A string
    is the sequence of its characters and [isLength] counts them. *)

Module IssueHandlers.
Import IssueModel Mongo Http IssuesRoutes.

(** What the handlers read of [req.user], which the [auth] middleware
    sets. *)
Record ReqUser := mkReqUser { ru_id : ObjectId; ru_role : string }.

Definition set_viewCount (n : Z) (i : Issue) : Issue :=
  mkIssue (_id i) (title i) (description i) (category i) (priority i)
    (status i) (reporter i) (assignedTo i) (location i) (votes i) (comments i)
    (tags i) (actualResolutionDate i) (resolutionNotes i) (isPublic i)
    (isAnonymous i) n (lastActivity i) (createdAt i) (updatedAt i).

(** [isLength({ min, max })] *)
Definition isLength (s : string) (min max : nat) : bool :=
  (min <=? String.length s)%nat && (String.length s <=? max)%nat.

(** The answer of [GET /api/issues/:id]: the issue itself, or a message. *)
Inductive DetailBody :=
| DetailIssue (issue : Issue)
| DetailMessage (message : string).

(** [GET /api/issues/:id] *)
Definition get_issue (id : ObjectId) (now : Date) (db : option Collection)
  : (Z * DetailBody) * option Collection :=
  match db with
  | None => ((500, DetailMessage "Server error while fetching issue"), db)
  | Some docs =>
      match findById id docs with
      | None =>
          if castsToObjectId id
          then ((404, DetailMessage "Issue not found"), db)
          else ((500, DetailMessage "Server error while fetching issue"), db)
      | Some issue =>
          let '(issue', docs') :=
            save now (set_viewCount (viewCount issue + 1) issue) docs in
          ((200, DetailIssue issue'), Some docs')
      end
  end.


(** [Issue.findByIdAndUpdate(id, update, { new: true })] for an update
    given as the function it applies, and [Issue.findByIdAndDelete(id)]. *)
Fixpoint updateById (f : Issue -> Issue) (id : ObjectId) (db : Collection)
  : option Issue * Collection :=
  match db with
  | [] => (None, [])
  | d :: rest =>
      if bool_decide (_id d = id) then (Some (f d), f d :: rest)
      else let '(r, rest') := updateById f id rest in (r, d :: rest')
  end.

Fixpoint deleteById (id : ObjectId) (db : Collection) : Collection :=
  match db with
  | [] => []
  | d :: rest =>
      if bool_decide (_id d = id) then rest else d :: deleteById id rest
  end.

Section Sanitized.
Variable trim : string -> string.
Variable schemaSet : string -> string.

(** [POST /api/issues/:id/comments] *)
Definition post_issue_comment (id : ObjectId) (u : ReqUser)
    (content : option string) (isOfficial : option bool) (now : Date)
    (db : option Collection) : Response * option Collection :=
  match content with
  | None => (Json 400 ErrorsBody, db)
  | Some raw =>
      let content := trim raw in
      if negb (isLength content 1 500) then (Json 400 ErrorsBody, db)
      else
        match db with
        | None =>
            (Json 500 (MessageBody "Server error while adding comment"), db)
        | Some docs =>
            match findById id docs with
            | None =>
                if castsToObjectId id
                then (Json 404 (MessageBody "Issue not found"), db)
                else
                  (Json 500 (MessageBody "Server error while adding comment"),
                   db)
            | Some issue =>
                let official := default false isOfficial in
                if official
                   && negb (bool_decide (ru_role u = "admin"))
                   && negb (bool_decide (ru_role u = "moderator"))
                then
                  (Json 403
                     (MessageBody
                        "Only admins and moderators can add official comments"),
                   db)
                else
                  let '(_, docs') :=
                    addComment issue (ru_id u) content official now docs in
                  match findById id docs' with
                  | Some updatedIssue =>
                      (Json 200 (IssueBody "Comment added successfully"
                                   updatedIssue), Some docs')
                  | None =>
                      (Json 200 (MessageBody "Comment added successfully"),
                       Some docs')
                  end
            end
        end
  end.

(** [req.body] of [PUT /api/issues/:id] *)
Record EditBody := mkEditBody {
  e_title : option string;
  e_description : option string;
  e_priority : option string;
  e_tags : option (list string)
}.

(** The body after the sanitizers of the chain. *)
Definition sanitizeEdit (b : EditBody) : EditBody :=
  {| e_title := trim <$> e_title b;
     e_description := trim <$> e_description b;
     e_priority := e_priority b;
     e_tags := e_tags b |}.

Definition optionalIsLength (v : option string) (min max : nat) : bool :=
  match v with
  | None => true
  | Some s => isLength s min max
  end.

Definition validEditBody (b : EditBody) : bool :=
  optionalIsLength (e_title b) 5 100
  && optionalIsLength (e_description b) 10 1000
  && optionalIsIn (e_priority b) priorities.

(** Lines 221-234: the keys of [updateData] that are set are written,
    through the setters of the schema; [updatedAt] is stamped. *)
Definition applyEdit (b : EditBody) (now : Date) (d : Issue) : Issue :=
  mkIssue (_id d)
    (match present (e_title b) with
     | Some t => schemaSet t
     | None => title d
     end)
    (match present (e_description b) with
     | Some t => schemaSet t
     | None => description d
     end)
    (category d)
    (default (priority d) (present (e_priority b)))
    (status d) (reporter d) (assignedTo d) (location d) (votes d) (comments d)
    (default (tags d) (e_tags b))
    (actualResolutionDate d) (resolutionNotes d) (isPublic d) (isAnonymous d)
    (viewCount d) now (createdAt d) now.

(** Line 217: who may update. *)
Definition mayUpdate (u : ReqUser) (issue : Issue) : bool :=
  negb (negb (bool_decide (toString (reporter issue) = toString (ru_id u)))
        && negb (bool_decide (ru_role u = "admin"))
        && negb (bool_decide (ru_role u = "moderator"))).

(** Line 259: who may delete. *)
Definition mayDelete (u : ReqUser) (issue : Issue) : bool :=
  negb (negb (bool_decide (toString (reporter issue) = toString (ru_id u)))
        && negb (bool_decide (ru_role u = "admin"))).

(** [PUT /api/issues/:id] *)
Definition put_issue (id : ObjectId) (u : ReqUser) (body : EditBody)
    (now : Date) (db : option Collection) : Response * option Collection :=
  let b := sanitizeEdit body in
  if negb (validEditBody b) then (Json 400 ErrorsBody, db)
  else
    match db with
    | None => (Json 500 (MessageBody "Server error while updating issue"), db)
    | Some docs =>
        match findById id docs with
        | None =>
            if castsToObjectId id
            then (Json 404 (MessageBody "Issue not found"), db)
            else
              (Json 500 (MessageBody "Server error while updating issue"), db)
        | Some issue =>
            if negb (mayUpdate u issue) then
              (Json 403 (MessageBody "Not authorized to update this issue"),
               db)
            else
              match updateById (applyEdit b now) id docs with
              | (Some updatedIssue, docs') =>
                  (Json 200 (IssueBody "Issue updated successfully"
                               updatedIssue), Some docs')
              | (None, docs') =>
                  (Json 200 (MessageBody "Issue updated successfully"),
                   Some docs')
              end
        end
    end.

(** [DELETE /api/issues/:id] *)
Definition delete_issue (id : ObjectId) (u : ReqUser)
    (db : option Collection) : Response * option Collection :=
  match db with
  | None => (Json 500 (MessageBody "Server error while deleting issue"), db)
  | Some docs =>
      match findById id docs with
      | None =>
          if castsToObjectId id
          then (Json 404 (MessageBody "Issue not found"), db)
          else (Json 500 (MessageBody "Server error while deleting issue"), db)
      | Some issue =>
          if negb (mayDelete u issue) then
            (Json 403 (MessageBody "Not authorized to delete this issue"), db)
          else
            (Json 200 (MessageBody "Issue deleted successfully"),
             Some (deleteById id docs))
      end
  end.

End Sanitized.
End IssueHandlers.

(** ** server/routes/admin.js: listing, priority and user deletion; the
    account deletion of the users routes *)

Module AdminHandlers.
Import IssueModel Mongo Http IssuesRoutes IssueHandlers.

(** [req.query] of [GET /api/admin/issues] *)
Record AdminListParams := mkAdminListParams {
  a_page : option Z;
  a_limit : option Z;
  a_status : option string;
  a_priority : option string;
  a_category : option string;
  a_search : option string;
  a_sortBy : option string;
  a_sortOrder : option string
}.

Definition validAdminListParams (p : AdminListParams) : bool :=
  optionalIsInt (a_page p) 1 None
  && optionalIsInt (a_limit p) 1 (Some 100)
  && optionalIsIn (a_status p) statuses
  && optionalIsIn (a_priority p) priorities
  && optionalIsIn (a_category p) categories.

(** Lines 92-103: the filter has no [isPublic] key. *)
Definition adminFilter (p : AdminListParams) : Filter :=
  {| f_isPublic := None;
     f_category := present (a_category p);
     f_status := present (a_status p);
     f_priority := present (a_priority p);
     f_or := present (a_search p) |}.

Definition adminQuery (p : AdminListParams) : Query :=
  let page := default 1 (a_page p) in
  let limit := default 20 (a_limit p) in
  {| q_filter := adminFilter p;
     q_where := None;
     q_sort := (default "createdAt" (a_sortBy p),
                if bool_decide (a_sortOrder p = Some "asc") then 1 else -1);
     q_skip := (page - 1) * limit;
     q_limit := limit |}.

Section Handlers.
Variable RegExp_i : string -> option (string -> bool).
Variable sortDocs : string -> Z -> list Issue -> list Issue.

Definition adminSearchCompiles (p : AdminListParams) : bool :=
  match present (a_search p) with
  | None => true
  | Some search => bool_decide (is_Some (RegExp_i search))
  end.

(** [GET /api/admin/issues], past [adminAuth] *)
Definition get_admin_issues (p : AdminListParams) (db : option Collection)
  : Response :=
  if negb (validAdminListParams p) then Json 400 ErrorsBody
  else if negb (adminSearchCompiles p) then
    Json 500 (MessageBody "Server error while fetching issues")
  else
    match db with
    | None => Json 500 (MessageBody "Server error while fetching issues")
    | Some docs =>
        let issues := exec RegExp_i sortDocs (adminQuery p) docs in
        let total := countDocuments RegExp_i (adminFilter p) docs in
        let limit := default 20 (a_limit p) in
        Json 200 (ListBody issues
                    {| currentPage := default 1 (a_page p);
                       totalPages := ceilDiv total limit;
                       totalItems := total;
                       itemsPerPage := limit |})
    end.

End Handlers.

Definition set_priority (p : string) (now : Date) (d : Issue) : Issue :=
  mkIssue (_id d) (title d) (description d) (category d) p
    (status d) (reporter d) (assignedTo d) (location d) (votes d) (comments d)
    (tags d) (actualResolutionDate d) (resolutionNotes d) (isPublic d)
    (isAnonymous d) (viewCount d) now (createdAt d) now.

(** [PUT /api/admin/issues/:id/priority], past [adminAuth] *)
Definition put_admin_issue_priority (id : ObjectId) (priority : option string)
    (now : Date) (db : option Collection) : Response * option Collection :=
  match priority with
  | None => (Json 400 ErrorsBody, db)
  | Some p =>
      if negb (bool_decide (p ∈ priorities)) then (Json 400 ErrorsBody, db)
      else
        match db with
        | None =>
            (Json 500
               (MessageBody "Server error while updating issue priority"), db)
        | Some docs =>
            match updateById (set_priority p now) id docs with
            | (None, _) =>
                if castsToObjectId id
                then (Json 404 (MessageBody "Issue not found"), db)
                else
                  (Json 500
                     (MessageBody
                        "Server error while updating issue priority"), db)
            | (Some issue, docs') =>
                (Json 200 (IssueBody "Issue priority updated successfully"
                             issue), Some docs')
            end
        end
  end.

(** The two collections of the store. *)
Record Store := mkStore { users : list ReqUser; issues : Collection }.






End AdminHandlers.

(** ** client/src/pages/IssueDetail.tsx: who sees the edit and delete
    buttons *)

Module Client.
Import IssueModel.

(** The signed-in user of the auth context. *)
Record ClientUser := mkClientUser { cu_id : string; cu_role : string }.

(** The fetched issue, as far as the two functions read it:
    [issue.reporter._id]. *)
Record ClientIssue := mkClientIssue { reporter_id : string }.

Definition canEditIssue (user : option ClientUser) (issue : option ClientIssue)
  : bool :=
  match user, issue with
  | Some user, Some issue =>
      bool_decide (cu_id user = reporter_id issue)
      || bool_decide (cu_role user = "admin")
      || bool_decide (cu_role user = "moderator")
  | _, _ => false
  end.

Definition canDeleteIssue (user : option ClientUser)
    (issue : option ClientIssue) : bool :=
  match user, issue with
  | Some user, Some issue =>
      bool_decide (cu_id user = reporter_id issue)
      || bool_decide (cu_role user = "admin")
  | _, _ => false
  end.

End Client.

(** ** Requests on stored issues, one after the other *)

Module Lifecycle.
Import IssueModel Mongo Http IssuesRoutes AdminRoutes IssueHandlers
  AdminHandlers.

(** The requests that act on one stored issue. *)
Inductive Request :=
| View (id : ObjectId)
| Vote (id userId : ObjectId) (voteType : option string)
| CommentOn (id : ObjectId) (u : ReqUser) (content : option string)
    (isOfficial : option bool)
| Edit (id : ObjectId) (u : ReqUser) (body : EditBody)
| Remove (id : ObjectId) (u : ReqUser)
| SetStatus (id : ObjectId) (body : StatusBody)
| SetPriority (id : ObjectId) (priority : option string).

Section Serving.
Variable trim : string -> string.
Variable schemaSet : string -> string.

(** The store after the handler of the request has answered. *)
Definition serve (r : Request) (now : Date) (db : option Collection)
  : option Collection :=
  match r with
  | View id => snd (get_issue id now db)
  | Vote id userId voteType => snd (post_issue_vote id userId voteType now db)
  | CommentOn id u content isOfficial =>
      snd (post_issue_comment trim id u content isOfficial now db)
  | Edit id u body => snd (put_issue trim schemaSet id u body now db)
  | Remove id u => snd (delete_issue id u db)
  | SetStatus id body => snd (put_admin_issue_status id body now db)
  | SetPriority id priority => snd (put_admin_issue_priority id priority now db)
  end.

Fixpoint serveAll (rs : list (Request * Date)) (db : option Collection)
  : option Collection :=
  match rs with
  | [] => db
  | (r, now) :: rest => serveAll rest (serve r now db)
  end.

End Serving.

(** What one request may make of a stored issue. *)
Definition evolves (d d' : Issue) : Prop :=
  _id d' = _id d
  /\ reporter d' = reporter d
  /\ createdAt d' = createdAt d
  /\ isPublic d' = isPublic d
  /\ isAnonymous d' = isAnonymous d
  /\ category d' = category d
  /\ location d' = location d
  /\ comments d `prefix_of` comments d'
  /\ viewCount d <= viewCount d'
  /\ (votes d' = votes d
      \/ exists u vt t, votes d' = votesAfter (votes d) u vt t).

(** The part of [evolves] that holds over any number of requests. *)
Definition descends (d d' : Issue) : Prop :=
  _id d' = _id d
  /\ reporter d' = reporter d
  /\ createdAt d' = createdAt d
  /\ isPublic d' = isPublic d
  /\ isAnonymous d' = isAnonymous d
  /\ category d' = category d
  /\ location d' = location d
  /\ comments d `prefix_of` comments d'
  /\ viewCount d <= viewCount d'.

(** The identifiers of a collection are pairwise different. *)
Definition uniqueIds (docs : Collection) : Prop := NoDup (_id <$> docs).

(** Every issue of [docs'] comes from the issue of [docs] with the same
    identifier, related by [R]. *)
Definition comesFrom (R : Issue -> Issue -> Prop) (docs docs' : Collection)
  : Prop :=
  forall id d', findById id docs' = Some d' ->
                exists d, findById id docs = Some d /\ R d d'.

(** No user is in both arrays or twice in one. *)
Definition votesOk (d : Issue) : Prop :=
  atMostOneMembership d /\ noRepeatedVoter d.

(** The comments flagged official, in order. *)
Definition officialComments (d : Issue) : list Comment :=
  List.filter isOfficial (comments d).

End Lifecycle.

(** ** The statistics in the specification's words, and the closed form
    of the [$group] stage *)

Module StatsSpec.
Import IssueModel Mongo Http.

Definition msPerDay : Z := 1000 * 60 * 60 * 24.

(** Following the specification's words: the resolution times in days of
    the issues that have a resolution date, and their mean. *)
Fixpoint resolutionTimesInDays (docs : list Issue) : list Q :=
  match docs with
  | [] => []
  | d :: rest =>
      match actualResolutionDate d with
      | Some r =>
          (inject_Z (r - createdAt d) / inject_Z msPerDay)%Q
          :: resolutionTimesInDays rest
      | None => resolutionTimesInDays rest
      end
  end.

Definition averageResolutionTime (docs : list Issue) : option Q :=
  match resolutionTimesInDays docs with
  | [] => None
  | qs => Some (Qsum qs / inject_Z (Z.of_nat (length qs)))%Q
  end.

(** What the argument of [$avg] is on one issue. *)
Definition daysOf (d : Issue) : bson :=
  match actualResolutionDate d with
  | Some r => BNum (inject_Z (r - createdAt d) / inject_Z msPerDay)
  | None => BNull
  end.

Definition countOf (s : string) (d : Issue) : bson :=
  if truthy (op_eq (fieldOf d "status") (BStr s)) then BNum 1 else BNum 0.

(** The one result of the [$group] stage on a non-empty collection. *)
Definition groupResult (docs : list Issue) : Overview :=
  {| totalIssues := acc_sum (map (fun _ => BNum 1) docs);
     openIssues := acc_sum (map (countOf "Open") docs);
     inProgressIssues := acc_sum (map (countOf "In Progress") docs);
     resolvedIssues := acc_sum (map (countOf "Resolved") docs);
     avgResolutionTime := acc_avg (map daysOf docs) |}.

End StatsSpec.

(** ** The bounding box in the specification's words *)

Module GeoSpec.
Import IssueModel Mongo IssuesRoutes.

(** Following the specification's words: the latitude of the issue lies
    within [lat ± r/111] and its longitude within
    [lng ± r/(111 cos(lat in radians))], in binary64 arithmetic. *)
Definition withinBox (cos : float -> float) (centreLat centreLng r : float)
    (d : Issue) : Prop :=
  let c := coordinates (location d) in
  let halfLat := (r / 111)%float in
  let halfLng := (r / (111 * cos (centreLat * Math_PI / 180)))%float in
  PrimFloat.leb (centreLat - halfLat) (lat c) = true
  /\ PrimFloat.leb (lat c) (centreLat + halfLat) = true
  /\ PrimFloat.leb (centreLng - halfLng) (lng c) = true
  /\ PrimFloat.leb (lng c) (centreLng + halfLng) = true.

(** The same request for page [k]. *)
Definition onPage (k : Z) (p : ListParams) : ListParams :=
  mkListParams (Some k) (p_limit p) (p_category p) (p_status p)
    (p_priority p) (p_search p) (p_sortBy p) (p_sortOrder p)
    (p_lat p) (p_lng p) (p_radius p).


End GeoSpec.

(** ** Reference instances of the platform functions

    Concrete stand-ins for [RegExp_i], [sortDocs], [sortByCount] and
    [Math_cos], with which the handlers run on concrete requests. *)

Module Reference.
Import IssueModel.

(** The identifiers of the sample issues and users: twenty-four
    hexadecimal digits each. *)
Definition id40 : ObjectId := "64b7f0a1c2d3e4f500000040".
Definition id41 : ObjectId := "64b7f0a1c2d3e4f500000041".
Definition idReporter : ObjectId := "64b7f0a1c2d3e4f5000000c1".
Definition idCitizen : ObjectId := "64b7f0a1c2d3e4f5000000a1".
Definition idNeighbour : ObjectId := "64b7f0a1c2d3e4f5000000a2".
Definition idModerator : ObjectId := "64b7f0a1c2d3e4f5000000b1".

Definition lower (c : Ascii.ascii) : Ascii.ascii :=
  let n := Ascii.nat_of_ascii c in
  if ((65 <=? n) && (n <=? 90))%nat then Ascii.ascii_of_nat (n + 32) else c.

Fixpoint lowerString (s : string) : string :=
  match s with
  | EmptyString => EmptyString
  | String c rest => String (lower c) (lowerString rest)
  end.

Fixpoint contains (pattern s : string) : bool :=
  String.prefix pattern s
  || match s with
     | EmptyString => false
     | String _ rest => contains pattern rest
     end.

(** Patterns read as plain text, matched anywhere and without case. *)
Definition plainRegExp (pattern : string) : option (string -> bool) :=
  Some (fun s => contains (lowerString pattern) (lowerString s)).

Definition fieldCompare (field : string) (a b : Issue) : comparison :=
  if bool_decide (field = "createdAt")
  then Z.compare (createdAt a) (createdAt b)
  else if bool_decide (field = "lastActivity")
  then Z.compare (lastActivity a) (lastActivity b)
  else if bool_decide (field = "priority")
  then String.compare (priority a) (priority b)
  else Eq.

Definition inOrder (field : string) (direction : Z) (a b : Issue) : Prop :=
  if bool_decide (direction = 1) then fieldCompare field a b <> Gt
  else fieldCompare field a b <> Lt.

#[local] Instance comparison_eq_dec : EqDecision comparison.
Proof. solve_decision. Defined.

#[local] Instance inOrder_dec field direction a b :
  Decision (inOrder field direction a b).
Proof. unfold inOrder. destruct (bool_decide _); apply _. Defined.

(** A stable sort on one stored field; [voteCount] is not stored, so
    sorting on it leaves the order as it is. *)
Definition sortByField (field : string) (direction : Z) (l : list Issue)
  : list Issue :=
  merge_sort (inOrder field direction) l.

Definition countGe (a b : string * Z) : Prop := snd b <= snd a.

#[local] Instance countGe_dec a b : Decision (countGe a b).
Proof. unfold countGe. apply _. Defined.

Definition sortByCountDesc (l : list (string * Z)) : list (string * Z) :=
  merge_sort countGe l.

(** Two public issues one degree of latitude apart, and a request for the
    issues within the default radius of the first. *)
Definition issueAt40 : Issue :=
  newIssue id40 "Pothole" "A deep pothole" "Roads & Transportation" "Medium"
    (mkLocation "Main St" (mkCoordinates 40 (-75))) ["road"] false idReporter 1000.

Definition issueAt41 : Issue :=
  newIssue id41 "Lamp" "Broken street lamp" "Utilities" "High"
    (mkLocation "Elm St" (mkCoordinates 41 (-75))) [] false idReporter 2000.

Definition nearbyParams : IssuesRoutes.ListParams :=
  IssuesRoutes.mkListParams None None None None None None None None
    (Some 40%float) (Some (-75)%float) None.

(** The first terms of the cosine series. *)
Definition cosSeries (x : float) : float :=
  let x2 := (x * x)%float in
  (1 - x2 / 2 * (1 - x2 / 12 * (1 - x2 / 30 * (1 - x2 / 56))))%float.

End Reference.

(** ** A sample run *)

Module Samples.
Import IssueModel IssuesRoutes AdminRoutes IssueHandlers AdminHandlers
  Lifecycle Reference.

Definition isSpace (c : Ascii.ascii) : bool :=
  let n := Ascii.nat_of_ascii c in
  ((9 <=? n) && (n <=? 13) || (n =? 32))%nat.

Fixpoint dropSpaces (l : list Ascii.ascii) : list Ascii.ascii :=
  match l with
  | c :: rest => if isSpace c then dropSpaces rest else l
  | [] => []
  end.

(** [trim] on strings of 7-bit characters. *)
Definition asciiTrim (s : string) : string :=
  String.string_of_list_ascii
    (rev (dropSpaces (rev (dropSpaces (String.list_ascii_of_string s))))).

Definition citizen : ReqUser := mkReqUser idCitizen "citizen".
Definition moderator : ReqUser := mkReqUser idModerator "moderator".
Definition reporterOfSamples : ReqUser := mkReqUser idReporter "citizen".

Definition sampleDocs : Collection := [issueAt40; issueAt41].


(** A view, a vote, a comment, a status update and a deletion. *)
Definition sampleRun : list (Request * Date) :=
  [ (View id40, 3000);
    (Vote id40 idCitizen (Some "upvote"), 4000);
    (CommentOn id40 citizen (Some " Needs fixing ") None, 5000);
    (SetStatus id40 (mkStatusBody (Some "Resolved") None None), 6000);
    (Remove id41 reporterOfSamples, 7000) ].

Definition sampleStore : Store :=
  mkStore [reporterOfSamples; citizen; moderator] sampleDocs.



(** An edit of the title, the second page of the public listing, a
    search for open potholes and the admin listing without filter. *)
Definition retitle : EditBody :=
  mkEditBody (Some "  Pothole on Main St ") None None None.


Definition openPotholes : ListParams :=
  mkListParams None None None (Some "Open") None (Some "pothole") None None
    None None None.

Definition everything : AdminListParams :=
  mkAdminListParams None None None None None None None None.

End Samples.

(** ** Counting issues and groups *)

Module Counts.
Import IssueModel.

(** The number of issues with a status, and with a category. *)
Definition statusCount (s : string) (docs : list Issue) : Z :=
  Z.of_nat (length (List.filter (fun d => bool_decide (status d = s)) docs)).

Definition categoryCount (c : string) (docs : list Issue) : Z :=
  Z.of_nat (length (List.filter (fun d => bool_decide (category d = c)) docs)).

(** The count a list of groups gives a key. *)
Fixpoint countFor (c : string) (g : list (string * Z)) : Z :=
  match g with
  | [] => 0
  | (k, n) :: rest => (if bool_decide (k = c) then n else 0) + countFor c rest
  end.

End Counts.

(** ** Facts about votes *)

Module VoteFacts.
Import IssueModel.

Lemma some_voted (u : ObjectId) (l : list Vote) :
  some (fun vote => bool_decide (toString (user vote) = toString u)) l = true
  <-> u ∈ user <$> l.
Proof.
  unfold some, toString. induction l as [|v l IH]; simpl.
  - split; [discriminate | intros H; inversion H].
  - rewrite orb_true_iff, IH, bool_decide_eq_true, elem_of_cons.
    split; intros [H|H]; auto.
Qed.

Lemma some_not_voted (u : ObjectId) (l : list Vote) :
  some (fun vote => bool_decide (toString (user vote) = toString u)) l = false
  <-> u ∉ user <$> l.
Proof.
  rewrite <- some_voted. destruct (some _ l); split; congruence.
Qed.

Lemma without_users (u : ObjectId) (l : list Vote) :
  user <$> without u l = filter (fun v => v <> u) (user <$> l).
Proof.
  unfold without, toString. induction l as [|v l IH]; [reflexivity|].
  rewrite fmap_cons, !filter_cons.
  repeat case_decide; try contradiction; rewrite ?fmap_cons, IH; reflexivity.
Qed.

Lemma elem_of_without (u w : ObjectId) (l : list Vote) :
  w ∈ user <$> without u l <-> w <> u /\ w ∈ user <$> l.
Proof. rewrite without_users, list_elem_of_filter. reflexivity. Qed.

Lemma without_absent (u : ObjectId) (l : list Vote) :
  u ∉ user <$> l -> without u l = l.
Proof.
  unfold without, toString. induction l as [|v l IH]; [reflexivity|].
  intros H. rewrite fmap_cons, not_elem_of_cons in H. destruct H as [Hne Hl].
  rewrite filter_cons_True by congruence. rewrite IH; auto.
Qed.

Lemma without_push_absent (u : ObjectId) (now : Date) (l : list Vote) :
  u ∉ user <$> l -> without u (push_vote u now l) = l.
Proof.
  intros H. unfold push_vote, without.
  rewrite filter_app. fold (without u l). rewrite (without_absent _ _ H).
  rewrite filter_cons_False, filter_nil, app_nil_r; [reflexivity|].
  unfold toString; simpl. intros Hne; apply Hne; reflexivity.
Qed.

Lemma users_push (u : ObjectId) (now : Date) (l : list Vote) :
  user <$> push_vote u now l = ((user <$> l) ++ [u])%list.
Proof. unfold push_vote. rewrite fmap_app. reflexivity. Qed.

Lemma votes_set_lastActivity d i : votes (set_lastActivity d i) = votes i.
Proof. reflexivity. Qed.

Lemma votes_set_votes v i : votes (set_votes v i) = v.
Proof. reflexivity. Qed.

Lemma votes_set_updatedAt d i : votes (set_updatedAt d i) = votes i.
Proof. reflexivity. Qed.

Lemma addVote_mutation_votes i u vt now :
  votes (addVote_mutation i u vt now) = votesAfter (votes i) u vt now.
Proof.
  unfold addVote_mutation, votesAfter, hasUserVoted.
  destruct (votes i) as [ups downs] eqn:Hv. simpl.
  destruct (some _ ups) eqn:Hu; destruct (some _ downs) eqn:Hd;
    repeat match goal with
    | H : some _ _ = true |- _ => apply some_voted in H
    | H : some _ _ = false |- _ => apply some_not_voted in H
    end;
    repeat case_bool_decide; try contradiction;
    rewrite ?votes_set_lastActivity, ?votes_set_votes, ?Hv; simpl;
    rewrite ?Hv; simpl;
    rewrite ?(without_absent u ups), ?(without_absent u downs) by assumption;
    reflexivity.
Qed.

Lemma addVote_fst i u vt now db :
  (addVote i u vt now db).1 = set_updatedAt now (addVote_mutation i u vt now).
Proof. reflexivity. Qed.

Lemma addVote_votes i u vt now db :
  votes (addVote i u vt now db).1 = votesAfter (votes i) u vt now.
Proof. rewrite addVote_fst, votes_set_updatedAt. apply addVote_mutation_votes. Qed.

Ltac users_simpl :=
  repeat first
    [ rewrite users_push | rewrite elem_of_app | rewrite elem_of_without
    | rewrite list_elem_of_singleton ].

Lemma votesAfter_atMostOne vs u vt now :
  (forall w, ~ (w ∈ user <$> upvotes vs /\ w ∈ user <$> downvotes vs)) ->
  forall w, ~ (w ∈ user <$> upvotes (votesAfter vs u vt now)
               /\ w ∈ user <$> downvotes (votesAfter vs u vt now)).
Proof.
  intros Hinv w. specialize (Hinv w). unfold votesAfter.
  repeat case_bool_decide; simpl; users_simpl; intuition congruence.
Qed.

Lemma NoDup_without u l : NoDup (user <$> l) -> NoDup (user <$> without u l).
Proof. rewrite without_users. apply NoDup_filter. Qed.

Lemma NoDup_push u now l :
  u ∉ user <$> l -> NoDup (user <$> l) -> NoDup (user <$> push_vote u now l).
Proof.
  intros Hu Hl. rewrite users_push. apply NoDup_app. split; [assumption|].
  split; [|apply NoDup_singleton].
  intros x Hx. rewrite list_elem_of_singleton. congruence.
Qed.

Lemma votesAfter_noRepeat vs u vt now :
  NoDup (user <$> upvotes vs) /\ NoDup (user <$> downvotes vs) ->
  NoDup (user <$> upvotes (votesAfter vs u vt now))
  /\ NoDup (user <$> downvotes (votesAfter vs u vt now)).
Proof.
  intros [Hu Hd]. unfold votesAfter.
  repeat case_bool_decide; simpl; split;
    auto using NoDup_without, NoDup_push.
Qed.

Lemma addVote_atMostOne i u vt now db :
  atMostOneMembership i -> atMostOneMembership (addVote i u vt now db).1.
Proof.
  unfold atMostOneMembership, upvoters, downvoters. intros H.
  rewrite addVote_votes. apply votesAfter_atMostOne, H.
Qed.

Lemma addVote_noRepeat i u vt now db :
  noRepeatedVoter i -> noRepeatedVoter (addVote i u vt now db).1.
Proof.
  unfold noRepeatedVoter, upvoters, downvoters. intros H.
  rewrite addVote_votes. apply votesAfter_noRepeat, H.
Qed.

Lemma addVotes_cons i u vt now rest db :
  addVotes i ((u, vt, now) :: rest) db
  = addVotes (addVote i u vt now db).1 rest (addVote i u vt now db).2.
Proof. simpl. destruct (addVote i u vt now db). reflexivity. Qed.

(** An invariant of single calls is an invariant of runs. *)
Lemma addVotes_invariant (P : Issue -> Prop) :
  (forall i u vt now db, P i -> P (addVote i u vt now db).1) ->
  forall calls i db, P i -> P (addVotes i calls db).1.
Proof.
  intros Hstep calls. induction calls as [|[[u vt] now] rest IH]; intros i db Hi.
  - exact Hi.
  - rewrite addVotes_cons. apply IH, Hstep, Hi.
Qed.

Lemma newIssue_atMostOne id t d c p loc tg an r now :
  atMostOneMembership (newIssue id t d c p loc tg an r now).
Proof. intros u [H _]. inversion H. Qed.

Lemma newIssue_noRepeat id t d c p loc tg an r now :
  noRepeatedVoter (newIssue id t d c p loc tg an r now).
Proof. split; apply NoDup_nil_2. Qed.

Lemma voteCount_sets i :
  noRepeatedVoter i ->
  voteCount i
  = Z.of_nat (size (upvoterSet i)) - Z.of_nat (size (downvoterSet i)).
Proof.
  intros [Hu Hd]. unfold voteCount, upvoterSet, downvoterSet.
  rewrite !size_list_to_set by assumption.
  unfold upvoters, downvoters. rewrite !length_fmap. reflexivity.
Qed.

(** [store] puts the document where [findById] finds it. *)
Lemma findById_store doc db : findById (_id doc) (store doc db) = Some doc.
Proof.
  unfold findById. induction db as [|d rest IH]; simpl.
  - rewrite bool_decide_eq_true_2; reflexivity.
  - destruct (bool_decide (_id d = _id doc)) eqn:E; simpl.
    + rewrite bool_decide_eq_true_2; reflexivity.
    + rewrite E. exact IH.
Qed.

(** C1: two upvotes in a row by a user who had not voted leave the user in
    neither array; the first call makes the user an upvoter and the second
    removes that vote again, so the arrays and the vote count are those
    from before. *)
Theorem C1_upvote_twice_toggles_off
    (i : Issue) (u : ObjectId) (t1 t2 : Date) (db : Collection) :
  u ∉ upvoters i -> u ∉ downvoters i ->
  let i1 := (addVote i u "upvote" t1 db).1 in
  let i2 := (addVotes i [(u, "upvote", t1); (u, "upvote", t2)] db).1 in
  u ∈ upvoters i1
  /\ (u ∉ upvoters i2) /\ (u ∉ downvoters i2)
  /\ hasUserVoted i2 u = mkUserVote false false
  /\ votes i2 = votes i
  /\ voteCount i2 = voteCount i.
Proof.
  intros Hu Hd i1 i2.
  assert (H1 : votes i1 = mkVotes (push_vote u t1 (upvotes (votes i)))
                                  (downvotes (votes i))).
  { unfold i1. rewrite addVote_votes. unfold votesAfter. simpl.
    rewrite bool_decide_eq_false_2 by exact Hu.
    rewrite (without_absent _ _ Hd). reflexivity. }
  assert (H2 : votes i2 = votes i).
  { unfold i2. rewrite addVotes_cons. fold i1. rewrite addVotes_cons.
    cbn [addVotes fst]. rewrite addVote_votes, H1.
    unfold votesAfter. simpl.
    rewrite bool_decide_eq_true_2
      by (rewrite users_push, elem_of_app, list_elem_of_singleton; auto).
    rewrite (without_push_absent _ _ _ Hu). destruct (votes i); reflexivity. }
  split.
  { unfold upvoters. rewrite H1. simpl.
    rewrite users_push, elem_of_app, list_elem_of_singleton. auto. }
  assert (Hu2 : u ∉ upvoters i2) by (unfold upvoters; rewrite H2; exact Hu).
  assert (Hd2 : u ∉ downvoters i2) by (unfold downvoters; rewrite H2; exact Hd).
  repeat split; try assumption.
  - unfold hasUserVoted. f_equal; apply some_not_voted; assumption.
  - unfold voteCount. rewrite H2. reflexivity.
Qed.

(** The hypotheses of C1 hold for a user on a new issue. *)
Lemma C1_upvote_twice_toggles_off_witness :
  let i := newIssue "i1" "Pothole" "A deep pothole" "Roads & Transportation"
             "Medium" (mkLocation "Main St" (mkCoordinates 40 (-75))) []
             false "r1" 1000 in
  let i2 := (addVotes i [("u1", "upvote", 2000); ("u1", "upvote", 3000)] [i]).1 in
  ("u1" ∉ upvoters i2) /\ ("u1" ∉ downvoters i2).
Proof.
  intros i i2.
  destruct (C1_upvote_twice_toggles_off i "u1" 2000 3000 [i])
    as (_ & Hu & Hd & _).
  - unfold upvoters; simpl. apply not_elem_of_nil.
  - unfold downvoters; simpl. apply not_elem_of_nil.
  - split; assumption.
Defined.

Lemma upvote_clears_down vs u now :
  ~ (u ∈ user <$> upvotes vs /\ u ∈ user <$> downvotes vs) ->
  u ∉ user <$> downvotes (votesAfter vs u "upvote" now).
Proof.
  intros H. unfold votesAfter. simpl.
  case_bool_decide; simpl; users_simpl; intuition congruence.
Qed.

Lemma downvote_of_non_downvoter vs u now :
  u ∉ user <$> downvotes vs ->
  u ∈ user <$> downvotes (votesAfter vs u "downvote" now)
  /\ (u ∉ user <$> upvotes (votesAfter vs u "downvote" now)).
Proof.
  intros H. unfold votesAfter. simpl.
  rewrite bool_decide_eq_false_2 by exact H. simpl.
  users_simpl. intuition congruence.
Qed.

Lemma up_then_down i u t1 t2 db :
  ~ (u ∈ upvoters i /\ u ∈ downvoters i) ->
  let i2 := (addVotes i [(u, "upvote", t1); (u, "downvote", t2)] db).1 in
  u ∈ downvoters i2 /\ (u ∉ upvoters i2).
Proof.
  intros H i2. unfold i2, upvoters, downvoters.
  rewrite !addVotes_cons. cbn [addVotes fst].
  rewrite addVote_votes. apply downvote_of_non_downvoter.
  rewrite addVote_votes. apply upvote_clears_down, H.
Qed.

(** C2: an upvote followed by a downvote of the same user leaves the user
    among the downvoters and not among the upvoters, on every issue that has
    no user in both arrays and in particular on every issue that a run of
    vote calls makes of a new one; and no vote call, with any user and any
    vote type, and no run of them, puts a user into both arrays. *)
Theorem C2_flip_and_at_most_one_membership :
  (forall i u t1 t2 db,
      atMostOneMembership i ->
      let i2 := (addVotes i [(u, "upvote", t1); (u, "downvote", t2)] db).1 in
      u ∈ downvoters i2 /\ (u ∉ upvoters i2))
  /\ (forall i u vt now db,
        atMostOneMembership i -> atMostOneMembership (addVote i u vt now db).1)
  /\ (forall i calls db,
        atMostOneMembership i -> atMostOneMembership (addVotes i calls db).1)
  /\ (forall id t d c p loc tg an r now calls db u t1 t2 db',
        let i := (addVotes (newIssue id t d c p loc tg an r now) calls db).1 in
        let i2 :=
          (addVotes i [(u, "upvote", t1); (u, "downvote", t2)] db').1 in
        atMostOneMembership i
        /\ u ∈ downvoters i2 /\ (u ∉ upvoters i2)).
Proof.
  split; [|split; [|split]].
  - intros i u t1 t2 db H. apply up_then_down, H.
  - intros. apply addVote_atMostOne. assumption.
  - intros i calls db H.
    apply (addVotes_invariant atMostOneMembership); [|exact H].
    intros. apply addVote_atMostOne. assumption.
  - intros id t d c p loc tg an r now calls db u t1 t2 db' i i2.
    assert (Hi : atMostOneMembership i).
    { apply (addVotes_invariant atMostOneMembership);
        [|apply newIssue_atMostOne].
      intros. apply addVote_atMostOne. assumption. }
    split; [exact Hi|]. apply up_then_down, Hi.
Qed.

(** An issue with one upvoter satisfies the hypothesis of C2; that user
    ends up a downvoter only. *)
Lemma C2_flip_and_at_most_one_membership_witness :
  let i := mkIssue "i1" "Pothole" "A deep pothole" "Roads & Transportation"
             "Medium" "Open" "r1" None
             (mkLocation "Main St" (mkCoordinates 40 (-75)))
             (mkVotes [mkVote "u1" 1500] []) [] [] None None true false 0
             1500 1000 1500 in
  let i2 :=
    (addVotes i [("u1", "upvote", 2000); ("u1", "downvote", 3000)] [i]).1 in
  atMostOneMembership i /\ "u1" ∈ downvoters i2 /\ ("u1" ∉ upvoters i2).
Proof.
  intros i i2.
  assert (Hi : atMostOneMembership i).
  { intros w [_ Hd]. unfold downvoters in Hd; simpl in Hd. inversion Hd. }
  split; [exact Hi|].
  exact (proj1 C2_flip_and_at_most_one_membership i "u1" 2000 3000 [i] Hi).
Defined.

(** C3: the vote count is the difference of the two array lengths and is
    a function of the arrays alone; on every issue that a run of vote calls
    makes of a new one (more generally of one without a repeated voter) it
    is the number of upvoters minus the number of downvoters; and after
    upvotes of A and B and a downvote of C, three different users, on a new
    issue of category Roads & Transportation it is 1. *)
Theorem C3_voteCount_upvoters_minus_downvoters :
  (forall i,
      voteCount i = Z.of_nat (length (upvotes (votes i)))
                    - Z.of_nat (length (downvotes (votes i))))
  /\ (forall i j, votes i = votes j -> voteCount i = voteCount j)
  /\ (forall i calls db,
        noRepeatedVoter i ->
        let i' := (addVotes i calls db).1 in
        noRepeatedVoter i'
        /\ voteCount i' = Z.of_nat (size (upvoterSet i'))
                          - Z.of_nat (size (downvoterSet i')))
  /\ (forall id t d c p loc tg an r now calls db,
        let i' := (addVotes (newIssue id t d c p loc tg an r now) calls db).1 in
        voteCount i' = Z.of_nat (size (upvoterSet i'))
                       - Z.of_nat (size (downvoterSet i')))
  /\ (forall id t d p loc tg an r now a b c t1 t2 t3 db,
        a <> b -> c <> a -> c <> b ->
        voteCount
          (addVotes
             (newIssue id t d "Roads & Transportation" p loc tg an r now)
             [(a, "upvote", t1); (b, "upvote", t2); (c, "downvote", t3)]
             db).1 = 1).
Proof.
  assert (Hrun : forall i calls db,
             noRepeatedVoter i -> noRepeatedVoter (addVotes i calls db).1).
  { intros i calls db H.
    apply (addVotes_invariant noRepeatedVoter); [|exact H].
    intros. apply addVote_noRepeat. assumption. }
  split; [reflexivity|].
  split; [intros i j H; unfold voteCount; rewrite H; reflexivity|].
  split; [intros i calls db H i'; split;
          [apply Hrun, H | apply voteCount_sets, Hrun, H]|].
  split; [intros; apply voteCount_sets, Hrun, newIssue_noRepeat|].
  intros id t d p loc tg an r now a b c t1 t2 t3 db Hab Hca Hcb.
  unfold voteCount. rewrite !addVotes_cons. cbn [addVotes fst].
  rewrite !addVote_votes. simpl. unfold votesAfter. simpl.
  rewrite (bool_decide_eq_false_2 (b ∈ [a]))
    by (rewrite list_elem_of_singleton; congruence).
  simpl. unfold push_vote, without, toString. simpl.
  rewrite !filter_cons_True, filter_nil by (simpl; congruence).
  reflexivity.
Qed.

(** Three different users on a new issue: the count is 1. *)
Lemma C3_voteCount_upvoters_minus_downvoters_witness :
  voteCount
    (addVotes
       (newIssue "i1" "Pothole" "A deep pothole" "Roads & Transportation"
          "Medium" (mkLocation "Main St" (mkCoordinates 40 (-75))) []
          false "r1" 1000)
       [("A", "upvote", 2000); ("B", "upvote", 3000); ("C", "downvote", 4000)]
       []).1 = 1.
Proof.
  apply (proj2 (proj2 (proj2 (proj2 C3_voteCount_upvoters_minus_downvoters))));
    intros H; inversion H.
Defined.

(** C10: with a vote type other than the two known ones, [addVote] leaves
    both arrays as they were, sets [lastActivity] to the current time,
    changes nothing else but the [updatedAt] stamp of [save], and the
    collection then holds the document under its [_id]. *)
Theorem C10_unknown_voteType_only_touches_activity
    (i : Issue) (u : ObjectId) (vt : string) (now : Date) (db : Collection) :
  vt <> "upvote" -> vt <> "downvote" ->
  let i' := (addVote i u vt now db).1 in
  let db' := (addVote i u vt now db).2 in
  upvotes (votes i') = upvotes (votes i)
  /\ downvotes (votes i') = downvotes (votes i)
  /\ hasUserVoted i' u = hasUserVoted i u
  /\ lastActivity i' = now
  /\ i' = set_updatedAt now (set_lastActivity now i)
  /\ findById (_id i) db' = Some i'.
Proof.
  intros Hup Hdown i' db'.
  assert (E0 : addVote_mutation i u vt now = set_lastActivity now i).
  { unfold addVote_mutation. destruct (hasUserVoted i u) as [up down].
    rewrite !bool_decide_eq_false_2 by assumption. reflexivity. }
  unfold i', db', addVote, save. cbn [fst snd]. rewrite E0.
  repeat split.
  apply (findById_store (set_updatedAt now (set_lastActivity now i))).
Qed.

(** An unrecognised vote type on a stored issue. *)
Lemma C10_unknown_voteType_only_touches_activity_witness :
  let i := newIssue "i1" "Pothole" "A deep pothole" "Roads & Transportation"
             "Medium" (mkLocation "Main St" (mkCoordinates 40 (-75))) []
             false "r1" 1000 in
  let i' := (addVote i "u1" "sidevote" 2000 [i]).1 in
  votes i' = votes i /\ lastActivity i' = 2000.
Proof.
  intros i i'.
  destruct (C10_unknown_voteType_only_touches_activity i "u1" "sidevote" 2000 [i])
    as (Hu & Hd & _ & Hl & _).
  - intros H; inversion H.
  - intros H; inversion H.
  - split; [reflexivity | exact Hl].
Defined.

End VoteFacts.
(** ** Facts about the public listing *)

Module ListingFacts.
Import IssueModel Mongo Http IssuesRoutes GeoSpec Reference.

Lemma elem_of_List_filter {A} (f : A -> bool) (l : list A) (x : A) :
  x ∈ List.filter f l <-> x ∈ l /\ f x = true.
Proof. rewrite !list_elem_of_In. apply filter_In. Qed.

Lemma eqCond_Some {A} `{EqDecision A} (x v : A) :
  eqCond (Some x) v = true <-> v = x.
Proof. unfold eqCond. apply bool_decide_eq_true. Qed.


Lemma sortByField_perm field direction l : sortByField field direction l ≡ₚ l.
Proof. apply merge_sort_Permutation. Qed.

(** Every element of a list is in one of its windows of [n] elements. *)
Lemma elem_of_some_page {A} (l : list A) (n : nat) (x : A) :
  (0 < n)%nat -> x ∈ l -> exists k, x ∈ take n (drop (k * n) l).
Proof.
  intros Hn Hx. apply list_elem_of_lookup_1 in Hx. destruct Hx as [i Hi].
  exists (i / n)%nat. apply (list_elem_of_lookup_2 _ (i mod n)%nat).
  rewrite lookup_take_lt by (apply Nat.mod_upper_bound; lia).
  rewrite lookup_drop.
  replace (i / n * n + i mod n)%nat with i; [exact Hi|].
  rewrite (Nat.div_mod_eq i n) at 1. lia.
Qed.

Lemma valid_limit_range (p : ListParams) :
  validListParams p = true -> 1 <= default 10 (p_limit p) <= 50.
Proof.
  unfold validListParams, optionalIsInt. rewrite !andb_true_iff.
  intros [[[[[[_ Hl] _] _] _] _] _].
  destruct (p_limit p); simpl in *; lia.
Qed.

Lemma valid_onPage (k : Z) (p : ListParams) :
  1 <= k -> validListParams p = true -> validListParams (onPage k p) = true.
Proof.
  intros Hk. unfold validListParams, onPage. cbn.
  rewrite !andb_true_iff. intros [[[[[[_ Hl] Hc] Hs] Hp] Hb] Ho].
  repeat split; try assumption. lia.
Qed.

Section Listing.
Variable RegExp_i : string -> option (string -> bool).
Variable sortDocs : string -> Z -> list Issue -> list Issue.
Variable Math_cos : float -> float.
Hypothesis sortDocs_perm : forall field direction l,
  sortDocs field direction l ≡ₚ l.

Lemma elem_of_selected (q : Query) (db : Collection) (d : Issue) :
  d ∈ selected RegExp_i sortDocs q db
  <-> d ∈ db /\ matchesQuery RegExp_i q d = true.
Proof.
  unfold selected. rewrite sortDocs_perm. apply elem_of_List_filter.
Qed.

Lemma elem_of_exec (q : Query) (db : Collection) (d : Issue) :
  d ∈ exec RegExp_i sortDocs q db ->
  d ∈ db /\ matchesQuery RegExp_i q d = true.
Proof.
  unfold exec. intros H. apply elem_of_selected.
  apply (subseteq_drop (Z.to_nat (q_skip q))).
  apply (subseteq_take (Z.to_nat (q_limit q))). exact H.
Qed.

(** The answer to a request that passes validation, on a reachable store. *)
Lemma get_issues_ok (p : ListParams) (docs : Collection) :
  validListParams p = true -> searchCompiles RegExp_i p = true ->
  get_issues RegExp_i sortDocs Math_cos p (Some docs)
  = Json 200
      (ListBody (exec RegExp_i sortDocs (buildQuery Math_cos p) docs)
         {| currentPage := default 1 (p_page p);
            totalPages :=
              ceilDiv (countDocuments RegExp_i (buildFilter p) docs)
                      (default 10 (p_limit p));
            totalItems := countDocuments RegExp_i (buildFilter p) docs;
            itemsPerPage := default 10 (p_limit p) |}).
Proof. intros Hv Hs. unfold get_issues. rewrite Hv, Hs. reflexivity. Qed.

(** Every list answer is the one of [get_issues_ok]. *)
Lemma get_issues_list (p : ListParams) (db : option Collection)
    (c : Z) (issues : list Issue) (pg : Pagination) :
  get_issues RegExp_i sortDocs Math_cos p db = Json c (ListBody issues pg) ->
  exists docs,
    db = Some docs /\ c = 200
    /\ issues = exec RegExp_i sortDocs (buildQuery Math_cos p) docs
    /\ totalItems pg = countDocuments RegExp_i (buildFilter p) docs.
Proof.
  unfold get_issues.
  destruct (validListParams p); simpl; [|discriminate].
  destruct (searchCompiles RegExp_i p); simpl; [|discriminate].
  destruct db as [docs|]; [|discriminate].
  intros H. injection H as <- <- <-. exists docs. auto.
Qed.



Lemma matchesGeo_withinBox (la lo r : float) (d : Issue) :
  matchesGeo (geoBox Math_cos la lo r) d = true
  <-> withinBox Math_cos la lo r d.
Proof.
  unfold matchesGeo, geoBox, withinBox. simpl.
  rewrite !andb_true_iff. tauto.
Qed.

(** With a centre, the conditions of the query are the filter and the
    box around the centre. *)
Lemma matchesQuery_centre (p : ListParams) (la lo : float) (d : Issue) :
  p_lat p = Some la -> p_lng p = Some lo ->
  matchesQuery RegExp_i (buildQuery Math_cos p) d = true
  <-> matchesFilter RegExp_i (buildFilter p) d = true
      /\ withinBox Math_cos la lo (default 10%float (p_radius p)) d.
Proof.
  intros Hla Hlo. unfold matchesQuery, buildQuery, geoWhere. simpl.
  rewrite Hla, Hlo. simpl.
  rewrite andb_true_iff, matchesGeo_withinBox. reflexivity.
Qed.

(** The pages of a request differ in their window only. *)
Lemma exec_onPage (k : Z) (p : ListParams) (docs : Collection) :
  exec RegExp_i sortDocs (buildQuery Math_cos (onPage k p)) docs
  = take (Z.to_nat (default 10 (p_limit p)))
      (drop (Z.to_nat ((k - 1) * default 10 (p_limit p)))
         (selected RegExp_i sortDocs (buildQuery Math_cos p) docs)).
Proof. reflexivity. Qed.

(** C5: when the request gives a centre, an issue is on a page of the
    listing exactly when it is stored, meets the filter and has its
    latitude within [lat ± r/111] and its longitude within
    [lng ± r/(111 cos(lat π/180))], where [r] is the radius of the request
    or 10: every issue of a list answer is within the box, every stored
    issue that meets the filter and the box is in the 200 answer to the
    request for one of the pages, and when the store holds no more issues
    than a page, the first page lists exactly those issues.  An issue at
    latitude 41 is outside the box of radius 10 around latitude 40,
    whatever the longitudes, and is in no list answer to a request with
    the centre (40, -75) and that radius. *)
Theorem C5_geolocation_bounding_box :
  (forall p docs la lo d,
      p_lat p = Some la -> p_lng p = Some lo ->
      validListParams p = true -> searchCompiles RegExp_i p = true ->
      (exists k issues pg,
          1 <= k
          /\ get_issues RegExp_i sortDocs Math_cos (onPage k p) (Some docs)
             = Json 200 (ListBody issues pg)
          /\ d ∈ issues)
      <-> d ∈ docs
          /\ matchesFilter RegExp_i (buildFilter p) d = true
          /\ withinBox Math_cos la lo (default 10%float (p_radius p)) d)
  /\ (forall p db la lo c issues pg d,
        p_lat p = Some la -> p_lng p = Some lo ->
        get_issues RegExp_i sortDocs Math_cos p db
        = Json c (ListBody issues pg) ->
        d ∈ issues ->
        withinBox Math_cos la lo (default 10%float (p_radius p)) d)
  /\ (forall p docs la lo c issues pg,
        p_lat p = Some la -> p_lng p = Some lo ->
        default 1 (p_page p) = 1 ->
        Z.of_nat (length docs) <= default 10 (p_limit p) ->
        get_issues RegExp_i sortDocs Math_cos p (Some docs)
        = Json c (ListBody issues pg) ->
        forall d,
          d ∈ issues
          <-> d ∈ docs
              /\ matchesFilter RegExp_i (buildFilter p) d = true
              /\ withinBox Math_cos la lo (default 10%float (p_radius p)) d)
  /\ (forall d lo,
        lat (coordinates (location d)) = 41%float ->
        ~ withinBox Math_cos 40 lo 10 d)
  /\ (forall p docs d c issues pg,
        p_lat p = Some 40%float -> p_lng p = Some (-75)%float ->
        p_radius p = None \/ p_radius p = Some 10%float ->
        lat (coordinates (location d)) = 41%float ->
        get_issues RegExp_i sortDocs Math_cos p (Some docs)
        = Json c (ListBody issues pg) ->
        d ∉ issues).
Proof.
  assert (Hout : forall d lo,
             lat (coordinates (location d)) = 41%float ->
             ~ withinBox Math_cos 40 lo 10 d).
  { intros d lo Hlat (_ & H & _). rewrite Hlat in H.
    vm_compute in H. discriminate H. }
  assert (Hlisted : forall p db la lo c issues pg d,
             p_lat p = Some la -> p_lng p = Some lo ->
             get_issues RegExp_i sortDocs Math_cos p db
             = Json c (ListBody issues pg) ->
             d ∈ issues ->
             exists docs,
               db = Some docs /\ d ∈ docs
               /\ matchesFilter RegExp_i (buildFilter p) d = true
               /\ withinBox Math_cos la lo (default 10%float (p_radius p)) d).
  { intros p db la lo c issues pg d Hla Hlo H Hd.
    destruct (get_issues_list _ _ _ _ _ H) as (docs & Hdb & _ & Hi & _).
    rewrite Hi in Hd. apply elem_of_exec in Hd. destruct Hd as [Hin Hm].
    apply (matchesQuery_centre p la lo d Hla Hlo) in Hm.
    exists docs. tauto. }
  split; [|split; [|split; [|split]]].
  - intros p docs la lo d Hla Hlo Hv Hs. split.
    + intros (k & issues & pg & Hk & H & Hd).
      destruct (Hlisted (onPage k p) (Some docs) la lo 200 issues pg d
                  Hla Hlo H Hd) as (docs' & Hdb & Hrest).
      injection Hdb as <-. exact Hrest.
    + intros (Hin & Hf & Hb).
      assert (Hsel : d ∈ selected RegExp_i sortDocs (buildQuery Math_cos p)
                         docs).
      { apply elem_of_selected. split; [exact Hin|].
        apply (matchesQuery_centre p la lo d Hla Hlo). tauto. }
      destruct (valid_limit_range p Hv) as [Hlim _].
      destruct (elem_of_some_page _ (Z.to_nat (default 10 (p_limit p))) d
                  ltac:(lia) Hsel) as (k & Hk).
      exists (Z.of_nat k + 1).
      assert (Hvk : validListParams (onPage (Z.of_nat k + 1) p) = true)
        by (apply valid_onPage; [lia | exact Hv]).
      rewrite (get_issues_ok _ docs Hvk Hs). do 2 eexists.
      split; [lia|]. split; [reflexivity|].
      rewrite exec_onPage.
      replace (Z.to_nat ((Z.of_nat k + 1 - 1) * default 10 (p_limit p)))
        with (k * Z.to_nat (default 10%Z (p_limit p)))%nat; [exact Hk|].
      rewrite Z.add_simpl_r, Z2Nat.inj_mul, Nat2Z.id by lia. reflexivity.
  - intros p db la lo c issues pg d Hla Hlo H Hd.
    destruct (Hlisted p db la lo c issues pg d Hla Hlo H Hd)
      as (docs & _ & _ & _ & Hb). exact Hb.
  - intros p docs la lo c issues pg Hla Hlo Hpage Hfit H d.
    destruct (get_issues_list _ _ _ _ _ H) as (docs' & Hdb & _ & Hi & _).
    injection Hdb as <-.
    rewrite <- (matchesQuery_centre p la lo d Hla Hlo), <- elem_of_selected.
    rewrite Hi. unfold exec, buildQuery at 1 2. cbn [q_skip q_limit].
    rewrite Hpage. change (Z.to_nat ((1 - 1) * _)) with 0%nat.
    rewrite drop_0, take_ge; [reflexivity|].
    unfold selected. rewrite sortDocs_perm.
    pose proof (List.filter_length_le
                  (matchesQuery RegExp_i (buildQuery Math_cos p)) docs).
    lia.
  - exact Hout.
  - intros p docs d c issues pg Hla Hlo Hr Hlat H Hd.
    destruct (Hlisted p (Some docs) _ _ c issues pg d Hla Hlo H Hd)
      as (docs' & _ & _ & _ & Hb).
    assert (E : default 10%float (p_radius p) = 10%float)
      by (destruct Hr as [-> | ->]; reflexivity).
    rewrite E in Hb. exact (Hout d _ Hlat Hb).
Qed.

(** Without a centre the reported total is the number of selected
    documents. *)
Lemma totalItems_without_geolocation (p : ListParams) (docs : Collection)
    (c : Z) (issues : list Issue) (pg : Pagination) :
  geoWhere Math_cos p = None ->
  get_issues RegExp_i sortDocs Math_cos p (Some docs)
  = Json c (ListBody issues pg) ->
  totalItems pg
  = Z.of_nat (length (selected RegExp_i sortDocs (buildQuery Math_cos p) docs)).
Proof.
  intros Hg H.
  destruct (get_issues_list _ _ _ _ _ H) as (docs' & Hd & _ & _ & Ht).
  injection Hd as <-. rewrite Ht. unfold countDocuments, selected.
  rewrite sortDocs_perm. do 2 f_equal. apply filter_ext. intros d.
  unfold matchesQuery, buildQuery. simpl. rewrite Hg. simpl.
  rewrite andb_true_r. reflexivity.
Qed.

End Listing.


(** The request of [nearbyParams] on the two sample issues: the issue at
    latitude 40 is on a page of the listing, the one at latitude 41 is not
    in the answer. *)
Lemma C5_geolocation_bounding_box_witness :
  (exists k issues pg,
      1 <= k
      /\ get_issues plainRegExp sortByField cosSeries (onPage k nearbyParams)
           (Some [issueAt40; issueAt41])
         = Json 200 (ListBody issues pg)
      /\ issueAt40 ∈ issues)
  /\ (issueAt41 ∉ [issueAt40]).
Proof.
  destruct (C5_geolocation_bounding_box plainRegExp sortByField cosSeries
              sortByField_perm) as (Hiff & _ & _ & _ & Hscenario).
  split.
  - apply (Hiff nearbyParams [issueAt40; issueAt41] 40%float (-75)%float
             issueAt40 eq_refl eq_refl eq_refl eq_refl).
    split; [apply list_elem_of_here|]. split; [vm_compute; reflexivity|].
    repeat split; vm_compute; reflexivity.
  - refine (Hscenario nearbyParams [issueAt40; issueAt41] issueAt41 200
              [issueAt40] (mkPagination 1 1 2 10) _ _ _ _ _).
    + reflexivity.
    + reflexivity.
    + left; reflexivity.
    + reflexivity.
    + vm_compute. reflexivity.
Defined.

(** The window of page [k] (counted from 0) of size [n]. *)
Lemma pages_concat {A} (n : nat) (pages : nat) :
  forall l : list A,
    (length l <= pages * n)%nat ->
    concat (map (fun k => take n (drop (k * n) l)) (seq 0 pages)) = l.
Proof.
  induction pages as [|pages IH]; intros l Hlen.
  - destruct l; [reflexivity | simpl in Hlen; lia].
  - cbn [seq]. rewrite <- seq_shift. cbn [map concat]. rewrite map_map.
    rewrite (map_ext _ (fun k => take n (drop (k * n) (drop n l)))).
    + rewrite IH; [apply take_drop|]. rewrite length_drop. simpl in Hlen. lia.
    + intros k. rewrite drop_drop. reflexivity.
Qed.

Lemma ceilDiv_covers (total limit : Z) :
  0 <= total -> 0 < limit -> total <= ceilDiv total limit * limit.
Proof.
  intros Ht Hl. unfold ceilDiv.
  pose proof (Z.div_mod (total + limit - 1) limit ltac:(lia)) as Hdm.
  pose proof (Z.mod_pos_bound (total + limit - 1) limit Hl) as Hm.
  nia.
Qed.

Lemma ceilDiv_least (total limit : Z) :
  0 < total -> 0 < limit -> (ceilDiv total limit - 1) * limit < total.
Proof.
  intros Ht Hl. unfold ceilDiv.
  pose proof (Z.div_mod (total + limit - 1) limit ltac:(lia)) as Hdm.
  pose proof (Z.mod_pos_bound (total + limit - 1) limit Hl) as Hm.
  nia.
Qed.

(** Pages of [limit] documents, read one after the other, give the
    selected documents in order, each once. *)
Lemma exec_pages_concat RegExp_i sortDocs (q : Query) (docs : Collection)
    (limit : nat) (pages : nat) :
  (length (selected RegExp_i sortDocs q docs) <= pages * limit)%nat ->
  concat (map (fun k => exec RegExp_i sortDocs
                          (withWindow q (Z.of_nat (k * limit))
                                        (Z.of_nat limit)) docs)
              (seq 0 pages))
  = selected RegExp_i sortDocs q docs.
Proof.
  intros H. etransitivity; [|apply (pages_concat limit pages _ H)].
  f_equal. apply map_ext. intros k. unfold exec, withWindow, selected. simpl.
  rewrite !Nat2Z.id. reflexivity.
Qed.

(** C4, where the code departs from it: the request of [nearbyParams] on
    the two sample issues.  Whatever the platform functions are, the answer
    reports two items on one page, while at most one stored issue meets
    the filter and the box; with the reference functions the answer lists
    the one issue and still reports two. *)
Theorem C4_totalItems_ignores_geolocation
    (RegExp_i : string -> option (string -> bool))
    (sortDocs : string -> Z -> list Issue -> list Issue)
    (Math_cos : float -> float) :
  let docs := [issueAt40; issueAt41] in
  let q := buildQuery Math_cos nearbyParams in
  get_issues RegExp_i sortDocs Math_cos nearbyParams (Some docs)
  = Json 200 (ListBody (exec RegExp_i sortDocs q docs)
                {| currentPage := 1; totalPages := 1; totalItems := 2;
                   itemsPerPage := 10 |})
  /\ (length (List.filter (matchesQuery RegExp_i q) docs) <= 1)%nat
  /\ get_issues plainRegExp sortByField cosSeries nearbyParams (Some docs)
     = Json 200 (ListBody [issueAt40]
                   {| currentPage := 1; totalPages := 1; totalItems := 2;
                      itemsPerPage := 10 |}).
Proof.
  intros docs q. split; [reflexivity|]. split; [|vm_compute; reflexivity].
  unfold docs. cbn [List.filter].
  assert (E : matchesQuery RegExp_i q issueAt41 = false).
  { unfold matchesQuery, q, buildQuery, nearbyParams, geoWhere. simpl.
    unfold matchesGeo, geoBox, issueAt41. simpl. reflexivity. }
  rewrite E. destruct (matchesQuery RegExp_i q issueAt40); simpl; lia.
Qed.

End ListingFacts.

(** ** Facts about the statistics overview *)

Module StatsFacts.
Import IssueModel Mongo Http IssuesRoutes Endpoints StatsSpec Reference.

Lemma evalAll_Some {A} (f : A -> option bson) (g : A -> bson) (docs : list A) :
  (forall d, f d = Some (g d)) -> evalAll f docs = Some (map g docs).
Proof.
  intros H. induction docs as [|d rest IH]; simpl; [reflexivity|].
  rewrite H, IH. reflexivity.
Qed.

Lemma resolutionDays_daysOf (d : Issue) : resolutionDays d = Some (daysOf d).
Proof.
  unfold resolutionDays, daysOf, fieldOf. simpl.
  destruct (actualResolutionDate d) as [r|]; reflexivity.
Qed.

Lemma numerics_daysOf (docs : list Issue) :
  numerics (map daysOf docs) = resolutionTimesInDays docs.
Proof.
  induction docs as [|d rest IH]; simpl; [reflexivity|].
  unfold daysOf at 1. destruct (actualResolutionDate d); simpl; rewrite IH;
    reflexivity.
Qed.

Lemma overviewStats_nonempty (d : Issue) (rest : list Issue) :
  overviewStats (d :: rest) = Some [groupResult (d :: rest)].
Proof.
  unfold overviewStats.
  rewrite (evalAll_Some (fun _ => Some (BNum 1)) (fun _ => BNum 1))
    by reflexivity.
  rewrite (evalAll_Some (statusIs "Open") (countOf "Open")) by reflexivity.
  rewrite (evalAll_Some (statusIs "In Progress") (countOf "In Progress"))
    by reflexivity.
  rewrite (evalAll_Some (statusIs "Resolved") (countOf "Resolved"))
    by reflexivity.
  rewrite (evalAll_Some resolutionDays daysOf) by apply resolutionDays_daysOf.
  reflexivity.
Qed.

Lemma acc_avg_daysOf (docs : list Issue) :
  match averageResolutionTime docs with
  | Some m => exists q, acc_avg (map daysOf docs) = BNum q /\ (q == m)%Q
  | None => acc_avg (map daysOf docs) = BNull
  end.
Proof.
  unfold averageResolutionTime, acc_avg. rewrite numerics_daysOf.
  destruct (resolutionTimesInDays docs) as [|q qs]; [reflexivity|].
  eexists. split; [reflexivity|]. apply Qred_correct.
Qed.

Lemma get_stats_overview_nonempty sortByCount (d : Issue) (rest : list Issue) :
  get_stats_overview sortByCount 1 (Some (d :: rest))
  = Json 200 (StatsBody (groupResult (d :: rest))
                (sortByCount (groupCount category (d :: rest)))).
Proof.
  unfold get_stats_overview. rewrite overviewStats_nonempty. reflexivity.
Qed.

(** C6: on a reachable store with at least one issue the overview's
    average resolution time is the mean of (resolution date - creation
    date) in days over exactly the issues that have a resolution date, and
    [null] when there is none; issues without a resolution date add
    nothing to the sum or to the count.  With resolution times of 2 and 4
    days and one unresolved issue it is 3. *)
Theorem C6_average_resolution_time_over_resolved_only :
  (forall sortByCount d rest,
      let docs := d :: rest in
      exists o cats,
        get_stats_overview sortByCount 1 (Some docs)
        = Json 200 (StatsBody o cats)
        /\ match averageResolutionTime docs with
           | Some m => exists q, avgResolutionTime o = BNum q /\ (q == m)%Q
           | None => avgResolutionTime o = BNull
           end)
  /\ (forall sortByCount a b u,
        actualResolutionDate a = Some (createdAt a + 2 * msPerDay) ->
        actualResolutionDate b = Some (createdAt b + 4 * msPerDay) ->
        actualResolutionDate u = None ->
        exists o cats,
          get_stats_overview sortByCount 1 (Some [a; b; u])
          = Json 200 (StatsBody o cats)
          /\ avgResolutionTime o = BNum 3).
Proof.
  split.
  - intros sortByCount d rest docs. eexists. eexists. split.
    + apply get_stats_overview_nonempty.
    + apply acc_avg_daysOf.
  - intros sortByCount a b u Ha Hb Hu. eexists. eexists. split.
    + apply get_stats_overview_nonempty.
    + unfold groupResult, acc_avg. cbn [avgResolutionTime].
      rewrite numerics_daysOf. cbn [resolutionTimesInDays].
      rewrite Ha, Hb, Hu.
      replace (createdAt a + 2 * msPerDay - createdAt a) with (2 * msPerDay)
        by lia.
      replace (createdAt b + 4 * msPerDay - createdAt b) with (4 * msPerDay)
        by lia.
      vm_compute. reflexivity.
Qed.

(** Two issues resolved after 2 and 4 days and one open issue. *)
Lemma C6_average_resolution_time_over_resolved_only_witness :
  let a := set_updatedAt 172801000
             (AdminRoutes.applyUpdate
                (AdminRoutes.statusUpdate
                   (AdminRoutes.mkStatusBody (Some "Resolved") None None)
                   172801000) 172801000 issueAt40) in
  let b := AdminRoutes.applyUpdate
             (AdminRoutes.statusUpdate
                (AdminRoutes.mkStatusBody (Some "Closed") None None)
                345602000) 345602000 issueAt41 in
  exists o cats,
    get_stats_overview sortByCountDesc 1 (Some [a; b; issueAt40])
    = Json 200 (StatsBody o cats)
    /\ avgResolutionTime o = BNum 3.
Proof.
  intros a b.
  apply (proj2 C6_average_resolution_time_over_resolved_only);
    reflexivity.
Defined.

(** C8: when the connection is not in the connected state, and when it
    is but the store operations throw, the statistics route answers 200
    with every count and the average at 0 and no category group; every
    other route handler answers a store failure with status 500 and a
    message, as the modelled listing, vote and status handlers do. *)
Theorem C8_stats_overview_degrades_to_zero :
  let zeroed :=
    Json 200
      (StatsBody
         {| totalIssues := BNum 0; openIssues := BNum 0;
            inProgressIssues := BNum 0; resolvedIssues := BNum 0;
            avgResolutionTime := BNum 0 |} []) in
  (forall sortByCount readyState db,
      readyState <> 1 -> get_stats_overview sortByCount readyState db = zeroed)
  /\ (forall sortByCount readyState,
        get_stats_overview sortByCount readyState None = zeroed)
  /\ onStoreFailure GetStatsOverview = zeroed
  /\ (forall e, e <> GetStatsOverview ->
                exists m, onStoreFailure e = Json 500 (MessageBody m))
  /\ (forall e, code (onStoreFailure e) = 200 <-> e = GetStatsOverview)
  /\ (forall RegExp_i sortDocs Math_cos p,
        validListParams p = true ->
        get_issues RegExp_i sortDocs Math_cos p None = onStoreFailure GetIssues)
  /\ (forall id userId voteType now,
        voteType = "upvote" \/ voteType = "downvote" ->
        post_issue_vote id userId (Some voteType) now None
        = (onStoreFailure PostIssueVote, None))
  /\ (forall id b now,
        AdminRoutes.validStatusBody b = true ->
        AdminRoutes.put_admin_issue_status id b now None
        = (onStoreFailure PutAdminIssueStatus, None)).
Proof.
  intros zeroed. repeat split.
  - intros sortByCount readyState db Hrs. unfold get_stats_overview.
    destruct (Z.eqb_spec readyState 1); [contradiction|reflexivity].
  - intros sortByCount readyState. unfold get_stats_overview.
    destruct (readyState =? 1)%Z; reflexivity.
  - intros e He. destruct e; try contradiction; eexists; reflexivity.
  - intros H. destruct e; simpl in H; try discriminate; reflexivity.
  - intros ->. reflexivity.
  - intros RegExp_i sortDocs Math_cos p Hv. unfold get_issues. rewrite Hv.
    simpl. destruct (searchCompiles RegExp_i p); reflexivity.
  - intros id userId voteType now [-> | ->]; reflexivity.
  - intros id b now Hv. unfold AdminRoutes.put_admin_issue_status.
    rewrite Hv. reflexivity.
Qed.

(** A disconnected store (ready state 0) holding the sample issues. *)
Lemma C8_stats_overview_degrades_to_zero_witness :
  get_stats_overview sortByCountDesc 0 (Some [issueAt40; issueAt41])
  = Json 200 (StatsBody zeroOverview []).
Proof.
  apply (proj1 C8_stats_overview_degrades_to_zero). lia.
Defined.

End StatsFacts.

(** ** Facts about the admin status update *)

Module AdminFacts.
Import IssueModel Mongo Http IssuesRoutes AdminRoutes Reference.

Lemma findByIdAndUpdate_found id u now (docs : Collection) (d : Issue) :
  findById id docs = Some d ->
  exists docs',
    findByIdAndUpdate id u now docs = (Some (applyUpdate u now d), docs')
    /\ findById id docs' = Some (applyUpdate u now d)
    /\ length docs' = length docs
    /\ forall other, other <> id -> findById other docs' = findById other docs.
Proof.
  unfold findById. induction docs as [|x rest IH]; simpl; [discriminate|].
  destruct (bool_decide (_id x = id)) eqn:E.
  - intros [= ->]. eexists. split; [reflexivity|]. simpl.
    apply bool_decide_eq_true in E.
    rewrite bool_decide_eq_true_2 by exact E.
    split; [reflexivity|]. split; [reflexivity|].
    intros other Ho.
    rewrite !bool_decide_eq_false_2 by congruence. reflexivity.
  - intros H. destruct (IH H) as (rest' & Hf & Hfind & Hlen & Hother).
    rewrite Hf. eexists. split; [reflexivity|]. simpl. rewrite E.
    split; [exact Hfind|]. split; [congruence|].
    intros other Ho. rewrite (Hother other Ho). reflexivity.
Qed.

Lemma findByIdAndUpdate_absent id u now (docs : Collection) :
  findById id docs = None -> findByIdAndUpdate id u now docs = (None, docs).
Proof.
  unfold findById. induction docs as [|x rest IH]; simpl; [reflexivity|].
  destruct (bool_decide (_id x = id)); [discriminate|].
  intros H. rewrite (IH H). reflexivity.
Qed.

(** C7: a valid status update of a stored issue answers 200 with the
    updated issue, which is then the stored one.  Its status is the new
    one; when that is Resolved or Closed its resolution date is the time
    of this update, written once by this update; for every other status
    the resolution date is the one it had; no other issue changes. *)
Theorem C7_status_update_sets_resolution_date
    (id : ObjectId) (b : StatusBody) (s : string) (now : Date)
    (docs : Collection) (d : Issue) :
  validStatusBody b = true -> b_status b = Some s ->
  findById id docs = Some d ->
  exists d' docs',
    put_admin_issue_status id b now (Some docs)
    = (Json 200 (IssueBody "Issue status updated successfully" d'),
       Some docs')
    /\ findById id docs' = Some d'
    /\ status d' = s
    /\ (s = "Resolved" \/ s = "Closed" -> actualResolutionDate d' = Some now)
    /\ (s <> "Resolved" -> s <> "Closed" ->
        actualResolutionDate d' = actualResolutionDate d)
    /\ lastActivity d' = now
    /\ (forall other, other <> id ->
                      findById other docs' = findById other docs).
Proof.
  intros Hv Hs Hd.
  destruct (findByIdAndUpdate_found id (statusUpdate b now) now docs d Hd)
    as (docs' & Hf & Hfind & _ & Hother).
  exists (applyUpdate (statusUpdate b now) now d), docs'.
  split.
  { unfold put_admin_issue_status. rewrite Hv, Hf. reflexivity. }
  split; [exact Hfind|].
  unfold applyUpdate, statusUpdate. rewrite Hs. simpl.
  split; [reflexivity|]. split; [|split; [|split; [reflexivity|exact Hother]]].
  - intros [-> | ->]; reflexivity.
  - intros H1 H2. rewrite !bool_decide_eq_false_2 by assumption. reflexivity.
Qed.

(** Resolving the first sample issue at time 5000. *)
Lemma C7_status_update_sets_resolution_date_witness :
  exists d' docs',
    put_admin_issue_status id40 (mkStatusBody (Some "Resolved") None None)
      5000 (Some [issueAt40; issueAt41])
    = (Json 200 (IssueBody "Issue status updated successfully" d'),
       Some docs')
    /\ actualResolutionDate d' = Some 5000.
Proof.
  destruct (C7_status_update_sets_resolution_date id40
              (mkStatusBody (Some "Resolved") None None) "Resolved" 5000
              [issueAt40; issueAt41] issueAt40)
    as (d' & docs' & H & _ & _ & Hr & _).
  - vm_compute. reflexivity.
  - reflexivity.
  - vm_compute. reflexivity.
  - exists d', docs'. split; [exact H | apply Hr; left; reflexivity].
Defined.

End AdminFacts.

(** ** Facts about the stored collection *)

Module StoreFacts.
Import IssueModel Mongo Http IssuesRoutes AdminRoutes IssueHandlers
  AdminHandlers Lifecycle Reference.

Lemma findById_cons id d rest :
  findById id (d :: rest)
  = if bool_decide (_id d = id) then Some d else findById id rest.
Proof. reflexivity. Qed.

Lemma findById_Some id docs d :
  findById id docs = Some d -> d ∈ docs /\ _id d = id.
Proof.
  induction docs as [|x rest IH]; [discriminate|].
  rewrite findById_cons. case_bool_decide as E.
  - intros [= ->]. split; [apply list_elem_of_here | exact E].
  - intros H. destruct (IH H). split; [apply list_elem_of_further|]; assumption.
Qed.

Lemma findById_None id docs :
  findById id docs = None <-> id ∉ _id <$> docs.
Proof.
  induction docs as [|x rest IH].
  - split; [intros _; apply not_elem_of_nil | reflexivity].
  - rewrite findById_cons, fmap_cons, not_elem_of_cons. case_bool_decide as E.
    + split; [discriminate | intros [H _]; congruence].
    + rewrite IH. split; [intros H; split; [congruence | exact H] | tauto].
Qed.

Lemma findById_elem docs d :
  uniqueIds docs -> d ∈ docs -> findById (_id d) docs = Some d.
Proof.
  unfold uniqueIds. induction docs as [|x rest IH]; intros Hu Hd.
  - inversion Hd.
  - rewrite fmap_cons in Hu. apply NoDup_cons in Hu. destruct Hu as [Hx Hu].
    rewrite findById_cons. apply elem_of_cons in Hd. destruct Hd as [-> | Hd].
    + rewrite bool_decide_eq_true_2; reflexivity.
    + rewrite bool_decide_eq_false_2; [apply IH; assumption|].
      intros E. apply Hx. rewrite E. apply list_elem_of_fmap_2, Hd.
Qed.

Lemma findById_store_any id doc db :
  findById id (store doc db)
  = if bool_decide (id = _id doc) then Some doc else findById id db.
Proof.
  induction db as [|x rest IH].
  - cbn [store]. rewrite findById_cons. change (findById id []) with (@None Issue).
    repeat case_bool_decide; congruence.
  - cbn [store]. destruct (bool_decide (_id x = _id doc)) eqn:E.
    + apply bool_decide_eq_true in E. rewrite !findById_cons.
      repeat case_bool_decide; congruence.
    + apply bool_decide_eq_false in E. rewrite !findById_cons, IH.
      repeat case_bool_decide; congruence.
Qed.

Lemma ids_store_present doc db x :
  findById (_id doc) db = Some x -> _id <$> store doc db = _id <$> db.
Proof.
  induction db as [|y rest IH]; [discriminate|].
  rewrite findById_cons. cbn [store]. case_bool_decide as E.
  - intros _. rewrite !fmap_cons. congruence.
  - intros H. rewrite !fmap_cons, (IH H). reflexivity.
Qed.

Lemma ids_store_absent doc db :
  findById (_id doc) db = None ->
  _id <$> store doc db = ((_id <$> db) ++ [_id doc])%list.
Proof.
  induction db as [|y rest IH]; [reflexivity|].
  rewrite findById_cons. cbn [store]. case_bool_decide as E; [discriminate|].
  intros H. rewrite !fmap_cons, (IH H). reflexivity.
Qed.

Lemma updateById_fst f id docs :
  (updateById f id docs).1 = f <$> findById id docs.
Proof.
  induction docs as [|x rest IH]; [reflexivity|].
  cbn [updateById]. rewrite findById_cons.
  destruct (bool_decide (_id x = id)); [reflexivity|].
  destruct (updateById f id rest). exact IH.
Qed.

Lemma updateById_ids f id docs :
  (forall d, _id (f d) = _id d) ->
  _id <$> (updateById f id docs).2 = _id <$> docs.
Proof.
  intros Hf. induction docs as [|x rest IH]; [reflexivity|].
  cbn [updateById]. destruct (bool_decide (_id x = id)).
  - cbn [snd]. rewrite !fmap_cons, Hf. reflexivity.
  - destruct (updateById f id rest). cbn [snd] in *. rewrite !fmap_cons, IH.
    reflexivity.
Qed.

Lemma findById_updateById f id docs id' :
  (forall d, _id (f d) = _id d) ->
  findById id' (updateById f id docs).2
  = if bool_decide (id' = id) then f <$> findById id docs
    else findById id' docs.
Proof.
  intros Hf. induction docs as [|x rest IH].
  - simpl. case_bool_decide; reflexivity.
  - cbn [updateById]. rewrite !findById_cons.
    destruct (bool_decide (_id x = id)) eqn:E.
    + apply bool_decide_eq_true in E. cbn [snd fmap option_fmap option_map].
      rewrite findById_cons, Hf.
      repeat case_bool_decide; congruence.
    + apply bool_decide_eq_false in E.
      destruct (updateById f id rest). cbn [snd] in *.
      rewrite findById_cons, IH.
      repeat case_bool_decide; congruence.
Qed.

Lemma findByIdAndUpdate_updateById id u now docs :
  findByIdAndUpdate id u now docs = updateById (applyUpdate u now) id docs.
Proof.
  induction docs as [|x rest IH]; [reflexivity|].
  simpl. rewrite IH. reflexivity.
Qed.

Lemma deleteById_sublist id docs : deleteById id docs `sublist_of` docs.
Proof.
  induction docs as [|x rest IH]; simpl; [constructor|].
  destruct (bool_decide (_id x = id)).
  - apply sublist_cons. reflexivity.
  - apply sublist_skip. exact IH.
Qed.

Lemma deleteById_unique id docs :
  uniqueIds docs -> uniqueIds (deleteById id docs).
Proof.
  unfold uniqueIds. intros H.
  eapply sublist_NoDup; [exact H|]. apply fmap_sublist, deleteById_sublist.
Qed.

Lemma findById_deleteById id docs id' :
  uniqueIds docs ->
  findById id' (deleteById id docs)
  = if bool_decide (id' = id) then None else findById id' docs.
Proof.
  unfold uniqueIds. induction docs as [|x rest IH]; intros Hu.
  - simpl. case_bool_decide; reflexivity.
  - rewrite fmap_cons in Hu. apply NoDup_cons in Hu. destruct Hu as [Hx Hu].
    cbn [deleteById]. rewrite findById_cons.
    destruct (bool_decide (_id x = id)) eqn:E.
    + apply bool_decide_eq_true in E. subst id.
      case_bool_decide as E'.
      * subst id'. apply findById_None, Hx.
      * rewrite bool_decide_eq_false_2 by congruence. reflexivity.
    + apply bool_decide_eq_false in E. rewrite findById_cons, (IH Hu).
      repeat case_bool_decide; congruence.
Qed.

End StoreFacts.

(** ** Facts about runs of requests *)

Module LifecycleFacts.
Import IssueModel Mongo Http IssuesRoutes AdminRoutes IssueHandlers
  AdminHandlers Lifecycle Reference Samples StoreFacts.

Lemma evolves_refl d : evolves d d.
Proof. unfold evolves. repeat split; try reflexivity; try lia. left; reflexivity. Qed.

Lemma descends_refl d : descends d d.
Proof. unfold descends. repeat split; try reflexivity; lia. Qed.

Lemma evolves_descends d d' : evolves d d' -> descends d d'.
Proof. unfold evolves, descends. tauto. Qed.

Lemma descends_trans d1 d2 d3 :
  descends d1 d2 -> descends d2 d3 -> descends d1 d3.
Proof.
  unfold descends.
  intros (A1 & A2 & A3 & A4 & A5 & A6 & A7 & A8 & A9)
         (B1 & B2 & B3 & B4 & B5 & B6 & B7 & B8 & B9).
  repeat split; try congruence; [etransitivity; eassumption | lia].
Qed.

Lemma comesFrom_refl docs : comesFrom evolves docs docs.
Proof. intros id d' H. exists d'. split; [exact H | apply evolves_refl]. Qed.

Lemma comesFrom_update f id docs :
  (forall d, _id (f d) = _id d) -> (forall d, evolves d (f d)) ->
  uniqueIds docs ->
  uniqueIds (updateById f id docs).2
  /\ comesFrom evolves docs (updateById f id docs).2.
Proof.
  intros Hid Hev Hu. split.
  - unfold uniqueIds. rewrite updateById_ids by exact Hid. exact Hu.
  - intros id' d'. rewrite findById_updateById by exact Hid.
    case_bool_decide as E.
    + subst id'. destruct (findById id docs) as [d|]; [|discriminate].
      intros [= <-]. exists d. split; [reflexivity | apply Hev].
    + intros Hfind. exists d'. split; [exact Hfind | apply evolves_refl].
Qed.

Lemma comesFrom_store doc docs issue :
  findById (_id doc) docs = Some issue -> evolves issue doc ->
  uniqueIds docs ->
  uniqueIds (store doc docs) /\ comesFrom evolves docs (store doc docs).
Proof.
  intros Hf Hev Hu. split.
  - unfold uniqueIds. rewrite (ids_store_present _ _ _ Hf). exact Hu.
  - intros id' d'. rewrite findById_store_any. case_bool_decide as E.
    + subst id'. intros [= <-]. exists issue. split; assumption.
    + intros Hfind. exists d'. split; [exact Hfind | apply evolves_refl].
Qed.

Lemma comesFrom_delete id docs :
  uniqueIds docs ->
  uniqueIds (deleteById id docs)
  /\ comesFrom evolves docs (deleteById id docs).
Proof.
  intros Hu. split; [apply deleteById_unique, Hu|].
  intros id' d'. rewrite findById_deleteById by exact Hu.
  case_bool_decide; [discriminate|].
  intros Hfind. exists d'. split; [exact Hfind | apply evolves_refl].
Qed.

Lemma addVote_mutation_frame i u vt now :
  let i' := addVote_mutation i u vt now in
  _id i' = _id i /\ reporter i' = reporter i /\ createdAt i' = createdAt i
  /\ isPublic i' = isPublic i /\ isAnonymous i' = isAnonymous i
  /\ category i' = category i /\ location i' = location i
  /\ comments i' = comments i /\ viewCount i' = viewCount i
  /\ status i' = status i /\ title i' = title i
  /\ description i' = description i /\ priority i' = priority i
  /\ tags i' = tags i
  /\ actualResolutionDate i' = actualResolutionDate i
  /\ lastActivity i' = now.
Proof.
  unfold addVote_mutation. destruct (hasUserVoted i u) as [[|] [|]];
    repeat case_bool_decide; repeat split; reflexivity.
Qed.

Lemma evolves_addVote i u vt now db : evolves i (addVote i u vt now db).1.
Proof.
  pose proof (addVote_mutation_frame i u vt now) as F. cbv zeta in F.
  destruct F as (F1 & F2 & F3 & F4 & F5 & F6 & F7 & F8 & F9 & _).
  unfold evolves. rewrite VoteFacts.addVote_votes.
  unfold addVote, save. cbn [fst].
  repeat split; try assumption.
  - change (comments (set_updatedAt now (addVote_mutation i u vt now)))
      with (comments (addVote_mutation i u vt now)). rewrite F8. reflexivity.
  - change (viewCount (set_updatedAt now (addVote_mutation i u vt now)))
      with (viewCount (addVote_mutation i u vt now)). lia.
  - right. eauto.
Qed.

Lemma evolves_applyUpdate u now d : evolves d (applyUpdate u now d).
Proof.
  unfold evolves, applyUpdate. simpl.
  repeat split; try reflexivity; try lia. left; reflexivity.
Qed.

Lemma evolves_set_priority p now d : evolves d (set_priority p now d).
Proof.
  unfold evolves, set_priority. simpl.
  repeat split; try reflexivity; try lia. left; reflexivity.
Qed.

Lemma evolves_applyEdit schemaSet b now d :
  evolves d (applyEdit schemaSet b now d).
Proof.
  unfold evolves, applyEdit. simpl.
  repeat split; try reflexivity; try lia. left; reflexivity.
Qed.

Lemma evolves_view now d :
  evolves d (set_updatedAt now (set_viewCount (viewCount d + 1) d)).
Proof.
  unfold evolves. simpl. repeat split; try reflexivity; try lia.
  left; reflexivity.
Qed.

Lemma evolves_addComment d u text official now db :
  evolves d (addComment d u text official now db).1.
Proof.
  unfold evolves, addComment, save. simpl.
  repeat split; try reflexivity; try lia.
  - apply prefix_app_r. reflexivity.
  - left; reflexivity.
Qed.

Lemma comesFrom_save now doc docs issue id :
  findById id docs = Some issue -> _id doc = _id issue ->
  evolves issue (set_updatedAt now doc) ->
  uniqueIds docs ->
  uniqueIds (save now doc docs).2
  /\ comesFrom evolves docs (save now doc docs).2.
Proof.
  intros Hf Hid Hev Hu. unfold save. cbn [snd].
  apply (comesFrom_store _ _ issue); try assumption.
  change (_id (set_updatedAt now doc)) with (_id doc). rewrite Hid.
  destruct (findById_Some _ _ _ Hf) as [_ ->]. exact Hf.
Qed.

Section Steps.
Variable trim : string -> string.
Variable schemaSet : string -> string.

Ltac keep docs :=
  try destruct (castsToObjectId _);
  (exists docs; split;
   [reflexivity | split; [assumption | apply comesFrom_refl]]).

(** One request on a reachable store: the store stays reachable, its
    identifiers stay different, and every issue evolves from its
    predecessor. *)
Lemma serve_step (r : Request) (now : Date) (docs : Collection) :
  uniqueIds docs ->
  exists docs',
    serve trim schemaSet r now (Some docs) = Some docs'
    /\ uniqueIds docs' /\ comesFrom evolves docs docs'.
Proof.
  intros Hu. destruct r as [id | id userId voteType | id u content isOfficial
                            | id u body | id u | id body | id priority];
    cbn [serve].
  - unfold get_issue. destruct (findById id docs) as [issue|] eqn:Hf;
      [|keep docs].
    destruct (save now _ docs) as [issue' docs'] eqn:Hs. cbn [snd].
    exists docs'. split; [reflexivity|].
    change docs' with (issue', docs').2. rewrite <- Hs.
    apply (comesFrom_save _ _ _ issue id); try assumption;
      [reflexivity | apply evolves_view].
  - unfold post_issue_vote.
    destruct (negb _); [keep docs|].
    destruct (findById id docs) as [issue|] eqn:Hf; [|keep docs].
    destruct (addVote issue userId _ now docs) as [issue' docs'] eqn:Hs.
    cbn [snd]. exists docs'. split; [reflexivity|].
    change docs' with (issue', docs').2. rewrite <- Hs. unfold addVote.
    apply (comesFrom_save _ _ _ issue id); try assumption.
    + apply (addVote_mutation_frame issue userId _ now).
    + apply (evolves_addVote issue userId _ now docs).
  - unfold post_issue_comment. destruct content as [raw|]; [|keep docs].
    destruct (negb _); [keep docs|].
    destruct (findById id docs) as [issue|] eqn:Hf; [|keep docs].
    destruct (_ && _); [keep docs|].
    destruct (addComment issue (ru_id u) (trim raw) _ now docs)
      as [issue' docs'] eqn:Hs.
    assert (Hok : uniqueIds docs' /\ comesFrom evolves docs docs').
    { change docs' with (issue', docs').2. rewrite <- Hs. unfold addComment.
      apply (comesFrom_save _ _ _ issue id); try assumption; [reflexivity|].
      apply (evolves_addComment issue (ru_id u) (trim raw) _ now docs). }
    destruct (findById id docs'); cbn [snd]; exists docs';
      (split; [reflexivity | exact Hok]).
  - unfold put_issue. destruct (negb _); [keep docs|].
    destruct (findById id docs) as [issue|] eqn:Hf; [|keep docs].
    destruct (negb _); [keep docs|].
    pose proof (comesFrom_update
                  (applyEdit schemaSet (sanitizeEdit trim body) now) id docs
                  (fun _ => eq_refl) (evolves_applyEdit _ _ _) Hu) as Hok.
    destruct (updateById _ id docs) as [[updated|] docs']; cbn [snd];
      exists docs'; (split; [reflexivity | exact Hok]).
  - unfold delete_issue.
    destruct (findById id docs) as [issue|] eqn:Hf; [|keep docs].
    destruct (negb _); [keep docs|]. cbn [snd].
    exists (deleteById id docs). split; [reflexivity|].
    apply comesFrom_delete, Hu.
  - unfold put_admin_issue_status. destruct (negb _); [keep docs|].
    rewrite findByIdAndUpdate_updateById.
    pose proof (comesFrom_update (applyUpdate (statusUpdate body now) now)
                  id docs (fun _ => eq_refl) (evolves_applyUpdate _ _) Hu)
      as Hok.
    destruct (updateById _ id docs) as [[updated|] docs']; cbn [snd];
      [exists docs'; split; [reflexivity | exact Hok] | keep docs].
  - unfold put_admin_issue_priority. destruct priority as [p|]; [|keep docs].
    destruct (negb _); [keep docs|].
    pose proof (comesFrom_update (set_priority p now) id docs
                  (fun _ => eq_refl) (evolves_set_priority _ _) Hu) as Hok.
    destruct (updateById _ id docs) as [[updated|] docs']; cbn [snd];
      [exists docs'; split; [reflexivity | exact Hok] | keep docs].
Qed.

(** Any number of requests: every issue still stored descends from its
    predecessor. *)
Lemma serveAll_descends (rs : list (Request * Date)) :
  forall docs,
    uniqueIds docs ->
    exists docs',
      serveAll trim schemaSet rs (Some docs) = Some docs'
      /\ uniqueIds docs' /\ comesFrom descends docs docs'.
Proof.
  induction rs as [|[r now] rest IH]; intros docs Hu.
  - exists docs. split; [reflexivity|]. split; [exact Hu|].
    intros id d' H. exists d'. split; [exact H | apply descends_refl].
  - destruct (serve_step r now docs Hu) as (docs1 & Hs & Hu1 & Hc1).
    destruct (IH docs1 Hu1) as (docs' & Hs' & Hu' & Hc').
    exists docs'. cbn [serveAll]. rewrite Hs. split; [exact Hs'|].
    split; [exact Hu'|].
    intros id d' H. destruct (Hc' id d' H) as (d1 & H1 & D1).
    destruct (Hc1 id d1 H1) as (d & H0 & D0).
    exists d. split; [exact H0|].
    eapply descends_trans; [apply evolves_descends, D0 | exact D1].
Qed.

Lemma votesOk_evolves d d' : votesOk d -> evolves d d' -> votesOk d'.
Proof.
  unfold votesOk, atMostOneMembership, noRepeatedVoter, upvoters, downvoters.
  intros [Ha Hn] (_ & _ & _ & _ & _ & _ & _ & _ & _ & [-> | (u & vt & t & ->)]).
  - split; assumption.
  - split; [apply VoteFacts.votesAfter_atMostOne, Ha
           | apply VoteFacts.votesAfter_noRepeat, Hn].
Qed.

Lemma votesOk_step (docs docs' : Collection) :
  uniqueIds docs' -> comesFrom evolves docs docs' ->
  Forall votesOk docs -> Forall votesOk docs'.
Proof.
  intros Hu Hc Hall. apply Forall_forall. intros d' Hd'.
  destruct (Hc _ _ (findById_elem _ _ Hu Hd')) as (d & Hd & Hev).
  apply (votesOk_evolves d); [|exact Hev].
  apply (proj1 (Forall_forall _ _) Hall). apply (findById_Some _ _ _ Hd).
Qed.

(** X1: over any run of view, vote, comment, edit, delete, status and
    priority requests on a store with pairwise different identifiers, the
    comments of every issue that is still stored are those it had, in
    their order, followed by the new ones: no request removes, reorders or
    rewrites a comment. *)
Theorem X1_comments_are_append_only
    (rs : list (Request * Date)) (docs : Collection) :
  uniqueIds docs ->
  exists docs',
    serveAll trim schemaSet rs (Some docs) = Some docs'
    /\ forall id d',
        findById id docs' = Some d' ->
        exists d, findById id docs = Some d
                  /\ comments d `prefix_of` comments d'.
Proof.
  intros Hu. destruct (serveAll_descends rs docs Hu) as (docs' & Hs & _ & Hc).
  exists docs'. split; [exact Hs|]. intros id d' H.
  destruct (Hc id d' H) as (d & Hd & D). exists d. split; [exact Hd|].
  apply D.
Qed.

(** X2: over any such run no request changes the reporter, the creation
    time, the category, the location, the anonymity flag or the public
    flag of a stored issue; in particular no route makes an issue
    non-public or hands it to another reporter. *)
Theorem X2_identity_fields_never_change
    (rs : list (Request * Date)) (docs : Collection) :
  uniqueIds docs ->
  exists docs',
    serveAll trim schemaSet rs (Some docs) = Some docs'
    /\ forall id d',
        findById id docs' = Some d' ->
        exists d, findById id docs = Some d
                  /\ reporter d' = reporter d
                  /\ createdAt d' = createdAt d
                  /\ category d' = category d
                  /\ location d' = location d
                  /\ isAnonymous d' = isAnonymous d
                  /\ isPublic d' = isPublic d.
Proof.
  intros Hu. destruct (serveAll_descends rs docs Hu) as (docs' & Hs & _ & Hc).
  exists docs'. split; [exact Hs|]. intros id d' H.
  destruct (Hc id d' H) as (d & Hd & D). exists d. split; [exact Hd|].
  unfold descends in D. tauto.
Qed.

(** X3: over any such run the view count of a stored issue never goes
    down, and the identifiers of the store stay pairwise different. *)
Theorem X3_viewCount_never_decreases
    (rs : list (Request * Date)) (docs : Collection) :
  uniqueIds docs ->
  exists docs',
    serveAll trim schemaSet rs (Some docs) = Some docs'
    /\ uniqueIds docs'
    /\ forall id d',
        findById id docs' = Some d' ->
        exists d, findById id docs = Some d /\ viewCount d <= viewCount d'.
Proof.
  intros Hu. destruct (serveAll_descends rs docs Hu) as (docs' & Hs & Hu' & Hc).
  exists docs'. split; [exact Hs|]. split; [exact Hu'|]. intros id d' H.
  destruct (Hc id d' H) as (d & Hd & D). exists d. split; [exact Hd|].
  apply D.
Qed.

(** X4: if no stored issue has a user in both vote arrays or twice in
    one, then after any such run no stored issue has: whatever mix of
    requests the routes serve, each user holds at most one vote on each
    issue. *)
Theorem X4_store_keeps_one_vote_per_user
    (rs : list (Request * Date)) (docs : Collection) :
  uniqueIds docs -> Forall votesOk docs ->
  exists docs',
    serveAll trim schemaSet rs (Some docs) = Some docs'
    /\ Forall votesOk docs'.
Proof.
  revert docs. induction rs as [|[r now] rest IH]; intros docs Hu Hall.
  - exists docs. split; [reflexivity | exact Hall].
  - destruct (serve_step r now docs Hu) as (docs1 & Hs & Hu1 & Hc1).
    destruct (IH docs1 Hu1 (votesOk_step _ _ Hu1 Hc1 Hall)) as (docs' & Hs' & H).
    exists docs'. cbn [serveAll]. rewrite Hs. split; assumption.
Qed.

End Steps.

Lemma sampleDocs_unique : uniqueIds sampleDocs.
Proof.
  unfold uniqueIds, sampleDocs. rewrite !fmap_cons, fmap_nil.
  apply (bool_decide_unpack _). vm_compute. exact I.
Qed.

Lemma X1_comments_are_append_only_witness :
  exists docs',
    serveAll asciiTrim asciiTrim sampleRun (Some sampleDocs) = Some docs'
    /\ forall id d',
        findById id docs' = Some d' ->
        exists d, findById id sampleDocs = Some d
                  /\ comments d `prefix_of` comments d'.
Proof.
  apply (X1_comments_are_append_only asciiTrim asciiTrim sampleRun sampleDocs).
  exact sampleDocs_unique.
Defined.

Lemma X2_identity_fields_never_change_witness :
  exists docs',
    serveAll asciiTrim asciiTrim sampleRun (Some sampleDocs) = Some docs'
    /\ forall id d',
        findById id docs' = Some d' ->
        exists d, findById id sampleDocs = Some d
                  /\ reporter d' = reporter d
                  /\ createdAt d' = createdAt d
                  /\ category d' = category d
                  /\ location d' = location d
                  /\ isAnonymous d' = isAnonymous d
                  /\ isPublic d' = isPublic d.
Proof.
  apply (X2_identity_fields_never_change asciiTrim asciiTrim sampleRun
           sampleDocs).
  exact sampleDocs_unique.
Defined.

Lemma X3_viewCount_never_decreases_witness :
  exists docs',
    serveAll asciiTrim asciiTrim sampleRun (Some sampleDocs) = Some docs'
    /\ uniqueIds docs'
    /\ forall id d',
        findById id docs' = Some d' ->
        exists d, findById id sampleDocs = Some d
                  /\ viewCount d <= viewCount d'.
Proof.
  apply (X3_viewCount_never_decreases asciiTrim asciiTrim sampleRun sampleDocs).
  exact sampleDocs_unique.
Defined.

Lemma X4_store_keeps_one_vote_per_user_witness :
  exists docs',
    serveAll asciiTrim asciiTrim sampleRun (Some sampleDocs) = Some docs'
    /\ Forall votesOk docs'.
Proof.
  apply (X4_store_keeps_one_vote_per_user asciiTrim asciiTrim sampleRun
           sampleDocs).
  - exact sampleDocs_unique.
  - repeat constructor; intros u [H _]; inversion H.
Defined.



End LifecycleFacts.

(** ** Facts about the single-issue handlers *)

Module HandlerFacts.
Import IssueModel Mongo Http IssuesRoutes AdminRoutes IssueHandlers
  AdminHandlers Lifecycle Client Reference Samples StoreFacts.

Lemma officialComments_app_citizen (cs : list Comment) (c : Comment) :
  isOfficial c = false ->
  List.filter isOfficial (cs ++ [c]) = List.filter isOfficial cs.
Proof.
  intros H. rewrite List.filter_app. simpl. rewrite H. apply app_nil_r.
Qed.

(** X6: a user who is neither admin nor moderator cannot add an official
    comment through the comment route: a request flagged official is never
    answered 200 and leaves the store as it was, and whatever the request,
    the official comments of every stored issue are afterwards those from
    before. *)
Theorem X6_only_staff_adds_official_comments
    (trim : string -> string) (id : ObjectId) (u : ReqUser)
    (content : option string) (isOfficial : option bool) (now : Date)
    (docs : Collection) :
  ru_role u <> "admin" -> ru_role u <> "moderator" ->
  exists docs',
    (post_issue_comment trim id u content isOfficial now (Some docs)).2
    = Some docs'
    /\ comesFrom (fun d d' => officialComments d' = officialComments d)
         docs docs'
    /\ (isOfficial = Some true ->
        docs' = docs
        /\ code (post_issue_comment trim id u content isOfficial now
                   (Some docs)).1 <> 200).
Proof.
  intros Ha Hm.
  assert (Hrefl : comesFrom
            (fun d d' => officialComments d' = officialComments d) docs docs).
  { intros i d' H. exists d'. split; [exact H | reflexivity]. }
  unfold post_issue_comment. destruct content as [raw|];
    [|exists docs; repeat split; [exact Hrefl | simpl; lia]].
  destruct (negb _);
    [exists docs; repeat split; [exact Hrefl | simpl; lia]|].
  destruct (findById id docs) as [issue|] eqn:Hf;
    [|destruct (castsToObjectId id);
      (exists docs; repeat split; [exact Hrefl | simpl; lia])].
  rewrite (bool_decide_eq_false_2 _ Ha), (bool_decide_eq_false_2 _ Hm).
  simpl negb. rewrite !andb_true_r.
  destruct (default false isOfficial) eqn:Hoff.
  - exists docs. repeat split; [exact Hrefl | simpl; lia].
  - unfold addComment, save.
    set (doc := set_updatedAt now _).
    assert (Hid : _id doc = id) by apply (findById_Some _ _ _ Hf).
    exists (store doc docs). split.
    { destruct (findById id (store doc docs)); reflexivity. }
    split.
    + intros i d'. rewrite findById_store_any. case_bool_decide as E.
      * intros [= <-]. exists issue. split; [congruence|].
        unfold officialComments, doc. simpl.
        apply officialComments_app_citizen. reflexivity.
      * intros Hd. exists d'. split; [exact Hd | reflexivity].
    + intros ->. discriminate Hoff.
Qed.

Lemma X6_only_staff_adds_official_comments_witness :
  exists docs',
    (post_issue_comment asciiTrim id40 citizen (Some "Fixed by the city")
       (Some true) 5000 (Some sampleDocs)).2 = Some docs'
    /\ docs' = sampleDocs.
Proof.
  destruct (X6_only_staff_adds_official_comments asciiTrim id40 citizen
              (Some "Fixed by the city") (Some true) 5000 sampleDocs)
    as (docs' & H & _ & Hsame).
  - discriminate.
  - discriminate.
  - exists docs'. split; [exact H | apply Hsame; reflexivity].
Defined.

Lemma mayUpdate_iff u issue :
  mayUpdate u issue = true
  <-> reporter issue = ru_id u \/ ru_role u = "admin"
      \/ ru_role u = "moderator".
Proof.
  unfold mayUpdate, toString. repeat case_bool_decide; simpl;
    intuition (try congruence; try discriminate).
Qed.

Lemma mayDelete_iff u issue :
  mayDelete u issue = true
  <-> reporter issue = ru_id u \/ ru_role u = "admin".
Proof.
  unfold mayDelete, toString. repeat case_bool_decide; simpl;
    intuition (try congruence; try discriminate).
Qed.

Lemma hasUserVoted_eq i u a b :
  (a = true <-> u ∈ upvoters i) -> (b = true <-> u ∈ downvoters i) ->
  hasUserVoted i u = mkUserVote a b.
Proof.
  intros Ha Hb. unfold hasUserVoted. f_equal.
  - apply eq_true_iff_eq. rewrite VoteFacts.some_voted. symmetry. exact Ha.
  - apply eq_true_iff_eq. rewrite VoteFacts.some_voted. symmetry. exact Hb.
Qed.

Lemma upvoted_iff i u : upvoted (hasUserVoted i u) = true <-> u ∈ upvoters i.
Proof. apply VoteFacts.some_voted. Qed.

Lemma downvoted_iff i u :
  downvoted (hasUserVoted i u) = true <-> u ∈ downvoters i.
Proof. apply VoteFacts.some_voted. Qed.

Ltac votes_cases :=
  unfold upvoters, downvoters; rewrite ?VoteFacts.addVote_votes;
  unfold votesAfter; simpl;
  repeat case_bool_decide; simpl;
  rewrite ?VoteFacts.users_push, ?elem_of_app, ?VoteFacts.elem_of_without,
    ?list_elem_of_singleton.



Lemma length_without_present u (l : list IssueModel.Vote) :
  NoDup (user <$> l) -> u ∈ user <$> l ->
  (length (without u l) + 1 = length l)%nat.
Proof.
  induction l as [|v l IH]; intros Hn Hu.
  - inversion Hu.
  - rewrite fmap_cons in Hn, Hu. apply NoDup_cons in Hn.
    destruct Hn as [Hv Hn]. apply elem_of_cons in Hu.
    destruct (decide (user v = u)) as [E | E].
    + replace (without u (v :: l)) with (without u l)
        by (unfold without, toString; rewrite filter_cons_False;
            [reflexivity | intros H; apply H; exact E]).
      rewrite VoteFacts.without_absent; [simpl; lia|].
      rewrite <- E. exact Hv.
    + replace (without u (v :: l)) with (v :: without u l)
        by (unfold without, toString; rewrite filter_cons_True;
            [reflexivity | exact E]).
      simpl. destruct Hu as [Hu | Hu]; [congruence|].
      rewrite <- (IH Hn Hu). lia.
Qed.

(** X8: on an issue without double or repeated votes, an upvote moves the
    vote count by +1 when the user had no vote, by +2 when the user had
    downvoted and by -1 when the user had upvoted; a downvote moves it by
    -1, -2 and +1 in the mirrored cases. *)
Theorem X8_vote_moves_the_count_by_one_or_two
    (i : Issue) (u : ObjectId) (now : Date) (db : Collection) :
  votesOk i ->
  let had := hasUserVoted i u in
  voteCount (addVote i u "upvote" now db).1 - voteCount i
  = (if upvoted had then -1 else if downvoted had then 2 else 1)
  /\ voteCount (addVote i u "downvote" now db).1 - voteCount i
     = (if downvoted had then 1 else if upvoted had then -2 else -1).
Proof.
  intros [Hone [Hnu Hnd]] had.
  unfold atMostOneMembership, upvoters, downvoters in *.
  specialize (Hone u).
  pose proof (upvoted_iff i u) as Hup. pose proof (downvoted_iff i u) as Hdn.
  unfold upvoters, downvoters in Hup, Hdn. fold had in Hup, Hdn.
  unfold voteCount. rewrite !VoteFacts.addVote_votes. unfold votesAfter.
  rewrite (bool_decide_eq_true_2 ("upvote" = "upvote")) by reflexivity.
  rewrite (bool_decide_eq_false_2 ("downvote" = "upvote")) by discriminate.
  rewrite (bool_decide_eq_true_2 ("downvote" = "downvote")) by reflexivity.
  destruct (upvoted had), (downvoted had); repeat case_bool_decide;
    try (exfalso; intuition congruence); simpl;
    unfold push_vote; rewrite ?length_app; simpl;
    repeat match goal with
    | H : u ∈ user <$> ?l |- _ =>
        pose proof (length_without_present u l ltac:(assumption) H);
        revert H
    | H : u ∉ user <$> ?l |- _ =>
        rewrite (VoteFacts.without_absent u l H); revert H
    end; intros; lia.
Qed.

Lemma X8_vote_moves_the_count_by_one_or_two_witness :
  voteCount (addVote issueAt40 idCitizen "upvote" 4000 sampleDocs).1
  - voteCount issueAt40 = 1.
Proof.
  refine (proj1 (X8_vote_moves_the_count_by_one_or_two issueAt40 idCitizen 4000
                   sampleDocs _)).
  split; [intros w [H _]; inversion H | split; apply NoDup_nil_2].
Defined.

(** X9: a vote of one user, of any vote type, leaves the vote state of
    every other user on that issue as it was. *)
Theorem X9_vote_leaves_other_users_votes
    (i : Issue) (u w : ObjectId) (vt : string) (now : Date)
    (db : Collection) :
  w <> u -> hasUserVoted (addVote i u vt now db).1 w = hasUserVoted i w.
Proof.
  intros Hw. unfold hasUserVoted at 2. apply hasUserVoted_eq.
  - rewrite VoteFacts.some_voted. votes_cases; intuition congruence.
  - rewrite VoteFacts.some_voted. votes_cases; intuition congruence.
Qed.

Lemma X9_vote_leaves_other_users_votes_witness :
  hasUserVoted (addVote issueAt40 idCitizen "downvote" 4000 sampleDocs).1 idNeighbour
  = hasUserVoted issueAt40 idNeighbour.
Proof.
  apply (X9_vote_leaves_other_users_votes issueAt40 idCitizen idNeighbour). discriminate.
Defined.

Section Editing.
Variable trim : string -> string.
Variable schemaSet : string -> string.

(** X10: an edit of a stored issue with a valid body is refused with 403,
    the store unchanged, exactly when the requester is neither the
    reporter nor an admin nor a moderator; otherwise it is answered 200
    with the stored result, in which status, votes, comments, view count
    and resolution date are the old ones, the last-activity time is the
    time of the request, a property the body does not name keeps its
    value, and no other issue changes. *)
Theorem X10_edit_needs_reporter_or_staff
    (id : ObjectId) (u : ReqUser) (body : EditBody) (now : Date)
    (docs : Collection) (issue : Issue) :
  validEditBody (sanitizeEdit trim body) = true ->
  findById id docs = Some issue ->
  (reporter issue <> ru_id u /\ ru_role u <> "admin"
   /\ ru_role u <> "moderator" ->
   put_issue trim schemaSet id u body now (Some docs)
   = (Json 403 (MessageBody "Not authorized to update this issue"),
      Some docs))
  /\ (reporter issue = ru_id u \/ ru_role u = "admin"
      \/ ru_role u = "moderator" ->
      exists updated docs',
        put_issue trim schemaSet id u body now (Some docs)
        = (Json 200 (IssueBody "Issue updated successfully" updated),
           Some docs')
        /\ findById id docs' = Some updated
        /\ status updated = status issue
        /\ votes updated = votes issue
        /\ comments updated = comments issue
        /\ viewCount updated = viewCount issue
        /\ actualResolutionDate updated = actualResolutionDate issue
        /\ lastActivity updated = now
        /\ (e_title body = None -> title updated = title issue)
        /\ (e_description body = None ->
            description updated = description issue)
        /\ (e_priority body = None -> priority updated = priority issue)
        /\ (e_tags body = None -> tags updated = tags issue)
        /\ (forall other, other <> id ->
                          findById other docs' = findById other docs)).
Proof.
  intros Hv Hf. split.
  - intros (Hr & Ha & Hm). unfold put_issue. rewrite Hv, Hf. simpl.
    unfold mayUpdate, toString.
    rewrite !bool_decide_eq_false_2 by assumption. reflexivity.
  - intros Hmay.
    assert (Hok : mayUpdate u issue = true).
    { unfold mayUpdate, toString. apply negb_true_iff.
      destruct Hmay as [H | [H | H]];
        rewrite (bool_decide_eq_true_2 _ H); simpl;
        rewrite ?andb_false_r; reflexivity. }
    set (f := applyEdit schemaSet (sanitizeEdit trim body) now).
    pose proof (updateById_fst f id docs) as H1. rewrite Hf in H1.
    exists (f issue), (updateById f id docs).2. split.
    { unfold put_issue. rewrite Hv, Hf, Hok. simpl. fold f.
      destruct (updateById f id docs) as [r docs']. simpl in H1.
      rewrite H1. reflexivity. }
    split.
    { rewrite (findById_updateById f id docs id (fun _ => eq_refl)).
      rewrite bool_decide_eq_true_2 by reflexivity. rewrite Hf. reflexivity. }
    assert (Hother : forall other, other <> id ->
              findById other (updateById f id docs).2 = findById other docs).
    { intros other Ho.
      rewrite (findById_updateById f id docs other (fun _ => eq_refl)).
      rewrite bool_decide_eq_false_2 by exact Ho. reflexivity. }
    unfold f at 1 2 3 4 5 6 7 8 9 10, applyEdit, sanitizeEdit. simpl.
    repeat split; try reflexivity; try exact Hother.
    + intros ->. reflexivity.
    + intros ->. reflexivity.
    + intros ->. reflexivity.
    + intros ->. reflexivity.
Qed.


(** X12: a moderator who did not report an issue may edit it but not
    delete it: the edit with a valid body is answered 200, the delete
    403. *)
Theorem X12_moderator_edits_but_does_not_delete
    (id : ObjectId) (u : ReqUser) (body : EditBody) (now : Date)
    (docs : Collection) (issue : Issue) :
  ru_role u = "moderator" -> reporter issue <> ru_id u ->
  validEditBody (sanitizeEdit trim body) = true ->
  findById id docs = Some issue ->
  code (put_issue trim schemaSet id u body now (Some docs)).1 = 200
  /\ delete_issue id u (Some docs)
     = (Json 403 (MessageBody "Not authorized to delete this issue"),
        Some docs).
Proof.
  intros Hm Hr Hv Hf. split.
  - unfold put_issue. rewrite Hv, Hf. simpl.
    unfold mayUpdate. rewrite (bool_decide_eq_true_2 _ Hm). simpl.
    rewrite !andb_false_r. simpl.
    destruct (updateById _ id docs) as [[r|] docs']; reflexivity.
  - unfold delete_issue. rewrite Hf. unfold mayDelete, toString.
    rewrite (bool_decide_eq_false_2 _ Hr).
    rewrite bool_decide_eq_false_2 by (rewrite Hm; discriminate).
    reflexivity.
Qed.

(** X13: the page shows the edit button exactly when the edit route
    would accept an edit of that issue by that user, and the delete
    button exactly when the delete route would accept the delete; without
    a signed-in user or without an issue it shows neither. *)
Theorem X13_buttons_agree_with_the_routes
    (id : ObjectId) (u : ReqUser) (body : EditBody) (now : Date)
    (docs : Collection) (issue : Issue) :
  validEditBody (sanitizeEdit trim body) = true ->
  findById id docs = Some issue ->
  let user := Some (mkClientUser (ru_id u) (ru_role u)) in
  let shown := Some (mkClientIssue (reporter issue)) in
  (canEditIssue user shown = true
   <-> code (put_issue trim schemaSet id u body now (Some docs)).1 = 200)
  /\ (canDeleteIssue user shown = true
      <-> code (delete_issue id u (Some docs)).1 = 200)
  /\ canEditIssue None shown = false
  /\ canDeleteIssue None shown = false
  /\ canEditIssue user None = false
  /\ canDeleteIssue user None = false.
Proof.
  intros Hv Hf user shown.
  assert (Hput : code (put_issue trim schemaSet id u body now (Some docs)).1
                 = 200 <-> mayUpdate u issue = true).
  { unfold put_issue. rewrite Hv, Hf. simpl.
    destruct (mayUpdate u issue); simpl;
      [destruct (updateById _ id docs) as [[r|] docs']|];
      simpl; split; intros H; try reflexivity; discriminate H. }
  assert (Hdel : code (delete_issue id u (Some docs)).1 = 200
                 <-> mayDelete u issue = true).
  { unfold delete_issue. rewrite Hf.
    destruct (mayDelete u issue); simpl; split; intros H;
      try reflexivity; discriminate H. }
  rewrite Hput, Hdel.
  repeat split; try reflexivity;
    unfold canEditIssue, canDeleteIssue, mayUpdate, mayDelete, toString,
      user, shown; simpl;
    repeat case_bool_decide; simpl; intros Hshown;
    try reflexivity; try discriminate Hshown; congruence.
Qed.

End Editing.

(** X23: a comment whose trimmed text has between 1 and 500 characters,
    sent without the official flag or by an admin or moderator, on a
    stored issue is answered 200 with the issue as it is then stored: its
    comments are the old ones followed by one comment with the requester
    as author, the trimmed text, the flag and the time of the request; the
    last-activity time is that time and the votes, status and view count
    are the old ones.  A missing text, or one that is empty or longer than
    500 characters after trimming, is answered 400 without a change. *)
Theorem X23_comment_is_appended_as_sent :
  (forall trim id u raw isOfficial now docs issue,
      isLength (trim raw) 1 500 = true ->
      findById id docs = Some issue ->
      default false isOfficial = false \/ ru_role u = "admin"
      \/ ru_role u = "moderator" ->
      exists updated docs',
        post_issue_comment trim id u (Some raw) isOfficial now (Some docs)
        = (Json 200 (IssueBody "Comment added successfully" updated),
           Some docs')
        /\ findById id docs' = Some updated
        /\ comments updated
           = (comments issue
              ++ [mkComment (ru_id u) (trim raw) (default false isOfficial)
                    now])%list
        /\ lastActivity updated = now
        /\ votes updated = votes issue
        /\ status updated = status issue
        /\ viewCount updated = viewCount issue
        /\ (forall other, other <> id ->
                          findById other docs' = findById other docs))
  /\ (forall trim id u isOfficial now db,
        post_issue_comment trim id u None isOfficial now db
        = (Json 400 ErrorsBody, db))
  /\ (forall trim id u raw isOfficial now db,
        isLength (trim raw) 1 500 = false ->
        post_issue_comment trim id u (Some raw) isOfficial now db
        = (Json 400 ErrorsBody, db)).
Proof.
  split; [|split].
  - intros trim id u raw isOfficial now docs issue Hlen Hf Hmay.
    set (doc := (addComment issue (ru_id u) (trim raw)
                   (default false isOfficial) now docs).1).
    assert (Hid : _id doc = id) by apply (findById_Some _ _ _ Hf).
    assert (Hfind : findById id (store doc docs) = Some doc).
    { rewrite findById_store_any, bool_decide_eq_true_2 by congruence.
      reflexivity. }
    assert (Hgate : default false isOfficial
                    && negb (bool_decide (ru_role u = "admin"))
                    && negb (bool_decide (ru_role u = "moderator")) = false).
    { destruct Hmay as [-> | [H | H]]; [reflexivity | |];
        rewrite (bool_decide_eq_true_2 _ H); simpl;
        rewrite ?andb_false_r; reflexivity. }
    exists doc, (store doc docs). split.
    { unfold post_issue_comment. rewrite Hlen, Hf. cbn [negb].
      rewrite Hgate.
      change (addComment issue (ru_id u) (trim raw)
                (default false isOfficial) now docs)
        with (doc, store doc docs).
      cbv iota beta. rewrite Hfind. reflexivity. }
    split; [exact Hfind|]. repeat split.
    intros other Ho. rewrite findById_store_any.
    rewrite bool_decide_eq_false_2 by congruence. reflexivity.
  - reflexivity.
  - intros trim id u raw isOfficial now db Hlen. unfold post_issue_comment.
    rewrite Hlen. reflexivity.
Qed.

Lemma X23_comment_is_appended_as_sent_witness :
  exists updated docs',
    post_issue_comment asciiTrim id40 citizen (Some " Needs fixing ") None
      5000 (Some sampleDocs)
    = (Json 200 (IssueBody "Comment added successfully" updated), Some docs')
    /\ comments updated = [mkComment idCitizen "Needs fixing" false 5000].
Proof.
  destruct (proj1 X23_comment_is_appended_as_sent asciiTrim id40 citizen
              " Needs fixing " None 5000 sampleDocs issueAt40)
    as (updated & docs' & H & _ & Hc & _).
  - vm_compute. reflexivity.
  - reflexivity.
  - left. reflexivity.
  - exists updated, docs'. split; [exact H | exact Hc].
Defined.

Lemma X10_edit_needs_reporter_or_staff_witness :
  put_issue asciiTrim asciiTrim id40 citizen retitle 8000 (Some sampleDocs)
  = (Json 403 (MessageBody "Not authorized to update this issue"),
     Some sampleDocs).
Proof.
  refine (proj1 (X10_edit_needs_reporter_or_staff asciiTrim asciiTrim id40
                   citizen retitle 8000 sampleDocs issueAt40 _ _) _).
  - vm_compute. reflexivity.
  - reflexivity.
  - repeat split; discriminate.
Defined.


Lemma X12_moderator_edits_but_does_not_delete_witness :
  code (put_issue asciiTrim asciiTrim id40 moderator retitle 8000
          (Some sampleDocs)).1 = 200
  /\ delete_issue id40 moderator (Some sampleDocs)
     = (Json 403 (MessageBody "Not authorized to delete this issue"),
        Some sampleDocs).
Proof.
  apply (X12_moderator_edits_but_does_not_delete asciiTrim asciiTrim id40
           moderator retitle 8000 sampleDocs issueAt40).
  - reflexivity.
  - discriminate.
  - vm_compute. reflexivity.
  - reflexivity.
Defined.

Lemma X13_buttons_agree_with_the_routes_witness :
  canEditIssue (Some (mkClientUser idModerator "moderator"))
    (Some (mkClientIssue idReporter)) = true
  <-> code (put_issue asciiTrim asciiTrim id40 moderator retitle 8000
              (Some sampleDocs)).1 = 200.
Proof.
  refine (proj1 (X13_buttons_agree_with_the_routes asciiTrim asciiTrim id40
                   moderator retitle 8000 sampleDocs issueAt40 _ _)).
  - vm_compute. reflexivity.
  - reflexivity.
Defined.

End HandlerFacts.

(** ** Facts about the counts of the statistics overview *)

Module CountFacts.
Import IssueModel Mongo Http IssuesRoutes StatsSpec Counts Reference Samples.

Lemma countOf_status s d :
  countOf s d = if bool_decide (status d = s) then BNum 1 else BNum 0.
Proof. reflexivity. Qed.

Lemma Qsum_ones (docs : list Issue) :
  (Qsum (numerics (map (fun _ => BNum 1) docs))
   == inject_Z (Z.of_nat (length docs)))%Q.
Proof.
  induction docs as [|d rest IH]; [reflexivity|].
  cbn [map numerics Qsum fold_right length]. fold (Qsum (numerics (map (fun _ : Issue => BNum 1) rest))).
  rewrite IH, Nat2Z.inj_succ. unfold Z.succ. rewrite inject_Z_plus. ring.
Qed.

Lemma Qsum_countOf s (docs : list Issue) :
  (Qsum (numerics (map (countOf s) docs)) == inject_Z (statusCount s docs))%Q.
Proof.
  unfold statusCount. induction docs as [|d rest IH]; [reflexivity|].
  cbn [map List.filter]. rewrite countOf_status.
  destruct (bool_decide (status d = s));
    cbn [numerics Qsum fold_right length];
    fold (Qsum (numerics (map (countOf s) rest))); rewrite IH.
  - rewrite Nat2Z.inj_succ. unfold Z.succ. rewrite inject_Z_plus. ring.
  - ring.
Qed.

(** X14: on a reachable store with at least one issue the overview counts
    every issue in [totalIssues] and the issues whose status is Open, In
    Progress and Resolved in the three other counters; issues that are
    Closed, Rejected or Under Review are in the total only. *)
Theorem X14_overview_counts_by_status
    (sortByCount : list (string * Z) -> list (string * Z))
    (d : Issue) (rest : list Issue) :
  let docs := d :: rest in
  exists o cats t op ip rs,
    get_stats_overview sortByCount 1 (Some docs) = Json 200 (StatsBody o cats)
    /\ totalIssues o = BNum t
    /\ (t == inject_Z (Z.of_nat (length docs)))%Q
    /\ openIssues o = BNum op
    /\ (op == inject_Z (statusCount "Open" docs))%Q
    /\ inProgressIssues o = BNum ip
    /\ (ip == inject_Z (statusCount "In Progress" docs))%Q
    /\ resolvedIssues o = BNum rs
    /\ (rs == inject_Z (statusCount "Resolved" docs))%Q.
Proof.
  intros docs. do 6 eexists.
  split; [apply StatsFacts.get_stats_overview_nonempty|].
  unfold groupResult, acc_sum. cbn [totalIssues openIssues inProgressIssues
                                    resolvedIssues].
  repeat split; try reflexivity;
    [apply Qsum_ones | apply Qsum_countOf ..].
Qed.

Lemma countFor_bump c k g :
  countFor c (bump k g)
  = countFor c g + (if bool_decide (k = c) then 1 else 0).
Proof.
  induction g as [|[k' n] rest IH]; simpl.
  - repeat case_bool_decide; lia.
  - destruct (bool_decide (k' = k)) eqn:E; simpl.
    + apply bool_decide_eq_true in E. subst k'. repeat case_bool_decide; lia.
    + rewrite IH. lia.
Qed.

Lemma keys_bump k g :
  fst <$> bump k g
  = if bool_decide (k ∈ fst <$> g) then fst <$> g
    else ((fst <$> g) ++ [k])%list.
Proof.
  induction g as [|[k' n] rest IH]; [reflexivity|].
  cbn [bump]. destruct (bool_decide (k' = k)) eqn:E.
  - apply bool_decide_eq_true in E. subst k'. rewrite !fmap_cons.
    rewrite bool_decide_eq_true_2 by apply list_elem_of_here. reflexivity.
  - apply bool_decide_eq_false in E. rewrite !fmap_cons, IH. cbn [fst].
    destruct (bool_decide (k ∈ fst <$> rest)) eqn:E'.
    + apply bool_decide_eq_true in E'.
      rewrite bool_decide_eq_true_2 by (apply list_elem_of_further, E').
      reflexivity.
    + apply bool_decide_eq_false in E'.
      rewrite bool_decide_eq_false_2; [reflexivity|].
      rewrite elem_of_cons. intros [H | H]; [congruence | contradiction].
Qed.

Lemma NoDup_keys_bump k g : NoDup (fst <$> g) -> NoDup (fst <$> bump k g).
Proof.
  intros H. rewrite keys_bump. case_bool_decide as E; [exact H|].
  apply NoDup_app. split; [exact H|]. split; [|apply NoDup_singleton].
  intros x Hx. rewrite list_elem_of_singleton. congruence.
Qed.

Lemma sum_bump k g :
  foldr Z.add 0 (snd <$> bump k g) = foldr Z.add 0 (snd <$> g) + 1.
Proof.
  induction g as [|[k' n] rest IH]; [reflexivity|].
  cbn [bump]. destruct (bool_decide (k' = k)).
  - rewrite !fmap_cons. simpl. lia.
  - rewrite !fmap_cons. simpl. simpl in IH. rewrite IH. lia.
Qed.

Lemma positive_bump k g :
  Forall (fun p => 0 < snd p) g -> Forall (fun p => 0 < snd p) (bump k g).
Proof.
  induction g as [|[k' n] rest IH]; intros H.
  - repeat constructor.
  - apply Forall_cons in H. destruct H as [Hn H]. cbn [bump].
    destruct (bool_decide (k' = k)); constructor; simpl in *;
      [lia | exact H | exact Hn | apply IH, H].
Qed.

Lemma groupCount_fold (key : Issue -> string) (docs : list Issue) :
  forall g,
    NoDup (fst <$> g) -> Forall (fun p => 0 < snd p) g ->
    let r := fold_left (fun g d => bump (key d) g) docs g in
    NoDup (fst <$> r)
    /\ Forall (fun p => 0 < snd p) r
    /\ foldr Z.add 0 (snd <$> r)
       = foldr Z.add 0 (snd <$> g) + Z.of_nat (length docs)
    /\ forall c,
        countFor c r
        = countFor c g
          + Z.of_nat (length (List.filter
                                (fun d => bool_decide (key d = c)) docs)).
Proof.
  induction docs as [|d rest IH]; intros g Hn Hp.
  - simpl. repeat split; try assumption; intros; lia.
  - cbn [fold_left].
    destruct (IH (bump (key d) g) (NoDup_keys_bump _ _ Hn)
                (positive_bump _ _ Hp)) as (H1 & H2 & H3 & H4).
    cbv zeta. repeat split; try assumption.
    + rewrite H3, sum_bump. cbn [length]. lia.
    + intros c. rewrite H4, countFor_bump. cbn [List.filter].
      destruct (bool_decide (key d = c)); cbn [length]; lia.
Qed.

Lemma countFor_entry c n g :
  NoDup (fst <$> g) -> (c, n) ∈ g -> countFor c g = n.
Proof.
  induction g as [|[k m] rest IH]; intros Hn Hin; [inversion Hin|].
  rewrite fmap_cons in Hn. apply NoDup_cons in Hn. destruct Hn as [Hk Hn].
  cbn [fst] in Hk.
  assert (Hnone : forall c', c' ∉ fst <$> rest -> countFor c' rest = 0).
  { clear. induction rest as [|[k m] rest IH]; intros c' H; [reflexivity|].
    rewrite fmap_cons, not_elem_of_cons in H. destruct H as [H1 H2].
    simpl. rewrite bool_decide_eq_false_2 by (simpl in H1; congruence).
    rewrite (IH _ H2). lia. }
  apply elem_of_cons in Hin. simpl. destruct Hin as [[= -> ->] | Hin].
  - rewrite bool_decide_eq_true_2 by reflexivity.
    rewrite (Hnone _ Hk). lia.
  - rewrite bool_decide_eq_false_2.
    + rewrite (IH Hn Hin). lia.
    + intros ->. apply Hk.
      apply (list_elem_of_fmap_2 fst rest (c, n)), Hin.
Qed.

Lemma countFor_positive c g :
  0 < countFor c g -> Forall (fun p => 0 < snd p) g ->
  exists n, (c, n) ∈ g.
Proof.
  induction g as [|[k m] rest IH]; simpl; [lia|]. intros H Hp.
  apply Forall_cons in Hp. destruct Hp as [_ Hp].
  case_bool_decide as E.
  - subst k. exists m. apply list_elem_of_here.
  - destruct (IH ltac:(lia) Hp) as [n Hn]. exists n.
    apply list_elem_of_further, Hn.
Qed.

Lemma countFor_perm c g g' : g ≡ₚ g' -> countFor c g = countFor c g'.
Proof.
  induction 1 as [|[k n] l l' _ IH|[k n] [k' n'] l|l1 l2 l3 _ IH1 _ IH2];
    simpl; lia.
Qed.

Lemma sum_perm (l l' : list Z) :
  l ≡ₚ l' -> foldr Z.add 0 l = foldr Z.add 0 l'.
Proof. induction 1; simpl; lia. Qed.

(** X15: when the sort stage permutes its input, the category groups of
    the overview name every category that has an issue once, each with
    the number of issues of that category, and the counts add up to the
    number of issues; on an empty collection the answer is the zeroed one
    that an unreachable store gets. *)
Theorem X15_category_groups_count_every_issue_once
    (sortByCount : list (string * Z) -> list (string * Z))
    (docs : list Issue) :
  (forall l, sortByCount l ≡ₚ l) ->
  exists o cats,
    get_stats_overview sortByCount 1 (Some docs) = Json 200 (StatsBody o cats)
    /\ NoDup (fst <$> cats)
    /\ (forall c n, (c, n) ∈ cats -> n = categoryCount c docs /\ 0 < n)
    /\ (forall d, d ∈ docs -> exists n, (category d, n) ∈ cats)
    /\ foldr Z.add 0 (snd <$> cats) = Z.of_nat (length docs)
    /\ (docs = [] ->
        get_stats_overview sortByCount 1 (Some docs)
        = get_stats_overview sortByCount 0 None).
Proof.
  intros Hperm.
  destruct (groupCount_fold category docs [] (NoDup_nil_2 (A:=string))
              (Forall_nil_2 _))
    as (H1 & H2 & H3 & H4). cbv zeta in *.
  fold (groupCount category docs) in *.
  set (cats := sortByCount (groupCount category docs)).
  assert (Hc : cats ≡ₚ groupCount category docs) by apply Hperm.
  assert (Hresp : exists o,
             get_stats_overview sortByCount 1 (Some docs)
             = Json 200 (StatsBody o cats)).
  { destruct docs as [|d rest].
    - eexists. reflexivity.
    - eexists. apply StatsFacts.get_stats_overview_nonempty. }
  destruct Hresp as [o Ho]. exists o, cats. split; [exact Ho|].
  assert (Hn : NoDup (fst <$> cats)) by (rewrite Hc; exact H1).
  assert (Hp : Forall (fun p => 0 < snd p) cats) by (rewrite Hc; exact H2).
  split; [exact Hn|]. split; [|split; [|split]].
  - intros c n Hin. split.
    + rewrite <- (countFor_entry c n cats Hn Hin), (countFor_perm c _ _ Hc), H4.
      simpl. unfold categoryCount. lia.
    + apply (proj1 (Forall_forall _ _) Hp (c, n) Hin).
  - intros d Hd. apply countFor_positive; [|exact Hp].
    rewrite (countFor_perm _ _ _ Hc), H4. simpl.
    assert (d ∈ List.filter (fun x => bool_decide (category x = category d)) docs).
    { apply ListingFacts.elem_of_List_filter. split; [exact Hd|].
      apply bool_decide_eq_true. reflexivity. }
    destruct (List.filter _ docs); [inversion H | simpl; lia].
  - rewrite (sum_perm _ _ (fmap_Permutation snd _ _ Hc)), H3. simpl. lia.
  - intros ->.
    assert (E : sortByCount [] = []) by apply Permutation_nil_r, Hperm.
    unfold get_stats_overview, groupCount. simpl. rewrite E. reflexivity.
Qed.

Lemma sortByCountDesc_perm l : sortByCountDesc l ≡ₚ l.
Proof. apply merge_sort_Permutation. Qed.

Lemma X15_category_groups_count_every_issue_once_witness :
  exists o cats,
    get_stats_overview sortByCountDesc 1 (Some sampleDocs)
    = Json 200 (StatsBody o cats)
    /\ foldr Z.add 0 (snd <$> cats) = 2.
Proof.
  destruct (X15_category_groups_count_every_issue_once sortByCountDesc
              sampleDocs sortByCountDesc_perm)
    as (o & cats & H & _ & _ & _ & Hsum & _).
  exists o, cats. split; assumption.
Defined.

End CountFacts.

(** ** More facts about the listings *)

Module ListingBounds.
Import IssueModel Mongo Http IssuesRoutes AdminRoutes IssueHandlers
  AdminHandlers GeoSpec Reference Samples.

Lemma present_Some (v : option string) (s : string) :
  present v = Some s <-> v = Some s /\ s <> "".
Proof.
  unfold present. destruct v as [t|]; [|split; [discriminate | intros [H _]; discriminate]].
  case_bool_decide as E.
  - split; [discriminate | intros [[= ->] H]; contradiction].
  - split; [intros [= ->]; auto | intros [[= ->] _]; reflexivity].
Qed.

Lemma isIn_not_empty (s : string) (values : list string) :
  "" ∉ values -> optionalIsIn (Some s) values = true -> present (Some s) = Some s.
Proof.
  intros Hv H. apply bool_decide_eq_true in H. apply present_Some.
  split; [reflexivity|]. intros ->. contradiction.
Qed.

Lemma get_issues_valid R sortDocs cos p db c issues pg :
  get_issues R sortDocs cos p db = Json c (ListBody issues pg) ->
  validListParams p = true
  /\ itemsPerPage pg = default 10 (p_limit p)
  /\ currentPage pg = default 1 (p_page p).
Proof.
  unfold get_issues. destruct (validListParams p); simpl; [|discriminate].
  destruct (searchCompiles R p); simpl; [|discriminate].
  destruct db as [docs|]; [|discriminate].
  intros [= _ _ <-]. auto.
Qed.



Section Sorted.
Variable RegExp_i : string -> option (string -> bool).
Variable sortDocs : string -> Z -> list Issue -> list Issue.
Variable Math_cos : float -> float.
Hypothesis sortDocs_perm : forall field direction l,
  sortDocs field direction l ≡ₚ l.

(** X17: every issue of a list answer of the public listing has the
    category, the status and the priority the request names, and when the
    request has a search text, the text's expression matches its title,
    its description or one of its tags. *)
Theorem X17_listed_issues_meet_the_request
    (p : ListParams) (docs : Collection) (c : Z) (issues : list Issue)
    (pg : Pagination) (d : Issue) :
  get_issues RegExp_i sortDocs Math_cos p (Some docs)
  = Json c (ListBody issues pg) ->
  d ∈ issues ->
  (forall s, p_category p = Some s -> category d = s)
  /\ (forall s, p_status p = Some s -> status d = s)
  /\ (forall s, p_priority p = Some s -> priority d = s)
  /\ (forall text, p_search p = Some text -> text <> "" ->
       exists test,
         RegExp_i text = Some test
         /\ test (title d) || test (description d) || existsb test (tags d)
            = true).
Proof.
  intros H Hd.
  destruct (get_issues_valid _ _ _ _ _ _ _ _ H) as (Hv & _ & _).
  destruct (ListingFacts.get_issues_list _ _ _ _ _ _ _ _ H)
    as (docs' & _ & _ & Hi & _).
  rewrite Hi in Hd.
  apply (ListingFacts.elem_of_exec _ _ sortDocs_perm) in Hd.
  destruct Hd as [_ Hm]. unfold matchesQuery in Hm.
  apply andb_true_iff in Hm. destruct Hm as [Hm _].
  unfold buildQuery in Hm. cbn [q_filter] in Hm.
  unfold matchesFilter, buildFilter in Hm. cbn in Hm.
  rewrite !andb_true_iff in Hm. destruct Hm as [[[[_ Hc] Hs] Hp] Ho].
  unfold validListParams in Hv. rewrite !andb_true_iff in Hv.
  destruct Hv as [[[[[[_ _] Vc] Vs] Vp] _] _].
  repeat split.
  - intros s E. rewrite E in Hc, Vc.
    rewrite (isIn_not_empty s categories) in Hc;
      [| apply (bool_decide_unpack _); vm_compute; exact I | exact Vc].
    apply bool_decide_eq_true in Hc. exact Hc.
  - intros s E. rewrite E in Hs, Vs.
    rewrite (isIn_not_empty s statuses) in Hs;
      [| apply (bool_decide_unpack _); vm_compute; exact I | exact Vs].
    apply bool_decide_eq_true in Hs. exact Hs.
  - intros s E. rewrite E in Hp, Vp.
    rewrite (isIn_not_empty s priorities) in Hp;
      [| apply (bool_decide_unpack _); vm_compute; exact I | exact Vp].
    apply bool_decide_eq_true in Hp. exact Hp.
  - intros text E Hne.
    rewrite (proj2 (present_Some (p_search p) text) (conj E Hne)) in Ho.
    unfold orCond in Ho. destruct (RegExp_i text) as [test|]; [|discriminate].
    exists test. split; [reflexivity | exact Ho].
Qed.


(** X19: the admin listing counts with the conditions of its query: the
    reported total is the number of selected issues, the pages it reports
    cover them, the listed issues are the window of the page, an issue is
    selected exactly when it is stored and meets the filter, which has no
    public condition, so that a request without filter selects every
    stored issue, public or not. *)
Theorem X19_admin_listing_counts_what_it_selects
    (p : AdminListParams) (docs : Collection) :
  validAdminListParams p = true -> adminSearchCompiles RegExp_i p = true ->
  let sel := selected RegExp_i sortDocs (adminQuery p) docs in
  let page := default 1 (a_page p) in
  let limit := default 20 (a_limit p) in
  exists issues pg,
    get_admin_issues RegExp_i sortDocs p (Some docs)
    = Json 200 (ListBody issues pg)
    /\ issues = take (Z.to_nat limit) (drop (Z.to_nat ((page - 1) * limit)) sel)
    /\ totalItems pg = Z.of_nat (length sel)
    /\ totalItems pg <= totalPages pg * itemsPerPage pg
    /\ 1 <= itemsPerPage pg <= 100
    /\ (forall d, d ∈ sel
                  <-> d ∈ docs
                      /\ matchesFilter RegExp_i (adminFilter p) d = true)
    /\ (a_status p = None -> a_priority p = None -> a_category p = None ->
        a_search p = None -> sel ≡ₚ docs).
Proof.
  intros Hv Hs sel page limit.
  assert (Hsel : forall d, matchesQuery RegExp_i (adminQuery p) d
                           = matchesFilter RegExp_i (adminFilter p) d).
  { intros d. unfold matchesQuery, adminQuery. simpl. apply andb_true_r. }
  assert (Hlim : 1 <= limit <= 100).
  { unfold validAdminListParams, optionalIsInt in Hv.
    rewrite !andb_true_iff in Hv. destruct Hv as [[[[_ Hl] _] _] _].
    unfold limit. destruct (a_limit p); simpl in *; lia. }
  assert (Hcount : countDocuments RegExp_i (adminFilter p) docs
                   = Z.of_nat (length sel)).
  { unfold countDocuments, sel, selected. rewrite sortDocs_perm.
    do 2 f_equal. apply filter_ext. intros d. symmetry. apply Hsel. }
  do 2 eexists. split.
  { unfold get_admin_issues. rewrite Hv, Hs. reflexivity. }
  cbn [totalItems totalPages itemsPerPage]. fold limit.
  split; [reflexivity|]. split; [exact Hcount|].
  split; [apply ListingFacts.ceilDiv_covers; rewrite ?Hcount; lia|].
  split; [exact Hlim|]. split.
  - intros d. unfold sel.
    rewrite (ListingFacts.elem_of_selected _ _ sortDocs_perm), Hsel.
    reflexivity.
  - intros E1 E2 E3 E4. unfold sel, selected. rewrite sortDocs_perm.
    rewrite (filter_ext _ (fun _ => true)).
    + clear. induction docs as [|x l IH]; simpl; [reflexivity|].
      rewrite IH. reflexivity.
    + intros d. rewrite Hsel. unfold matchesFilter, adminFilter.
      simpl. rewrite E1, E2, E3, E4. reflexivity.
Qed.

End Sorted.


Lemma X17_listed_issues_meet_the_request_witness : status issueAt40 = "Open".
Proof.
  refine (proj1 (proj2 (X17_listed_issues_meet_the_request plainRegExp
                          sortByField cosSeries ListingFacts.sortByField_perm
                          openPotholes sampleDocs 200 [issueAt40]
                          (mkPagination 1 1 1 10) issueAt40 _ _))
            "Open" eq_refl).
  - vm_compute. reflexivity.
  - apply list_elem_of_here.
Defined.


Lemma X19_admin_listing_counts_what_it_selects_witness :
  exists issues pg,
    get_admin_issues plainRegExp sortByField everything (Some sampleDocs)
    = Json 200 (ListBody issues pg)
    /\ totalItems pg = 2.
Proof.
  destruct (X19_admin_listing_counts_what_it_selects plainRegExp sortByField
              ListingFacts.sortByField_perm everything sampleDocs
              eq_refl eq_refl)
    as (issues & pg & H & _ & Ht & _).
  exists issues, pg. split; [exact H|]. rewrite Ht. vm_compute. reflexivity.
Defined.

End ListingBounds.

(** ** More facts about the admin routes *)

Module AdminMore.
Import IssueModel Mongo Http IssuesRoutes AdminRoutes IssueHandlers
  AdminHandlers Lifecycle Reference Samples StoreFacts.

Lemma isMongoId_not_empty a : isMongoId a = true -> a <> "".
Proof. intros H ->. discriminate H. Qed.

(** X20: a valid status update of a stored issue writes the resolution
    notes of the body only when the new status is Resolved or Closed and
    the notes are not empty; in every other case the stored notes stay,
    so that notes sent with another status are dropped.  The assignee
    becomes the one the body names and stays when it names none; title,
    description, priority, votes, comments and view count stay. *)
Theorem X20_status_update_keeps_notes_unless_resolving
    (id : ObjectId) (b : StatusBody) (s : string) (now : Date)
    (docs : Collection) (d : Issue) :
  validStatusBody b = true -> b_status b = Some s ->
  findById id docs = Some d ->
  exists d' docs',
    put_admin_issue_status id b now (Some docs)
    = (Json 200 (IssueBody "Issue status updated successfully" d'),
       Some docs')
    /\ (s <> "Resolved" -> s <> "Closed" ->
        resolutionNotes d' = resolutionNotes d)
    /\ (s = "Resolved" \/ s = "Closed" ->
        forall n, b_resolutionNotes b = Some n -> n <> "" ->
                  resolutionNotes d' = Some n)
    /\ (b_resolutionNotes b = None \/ b_resolutionNotes b = Some "" ->
        resolutionNotes d' = resolutionNotes d)
    /\ (forall a, b_assignedTo b = Some a -> assignedTo d' = Some a)
    /\ (b_assignedTo b = None -> assignedTo d' = assignedTo d)
    /\ title d' = title d /\ description d' = description d
    /\ priority d' = priority d /\ votes d' = votes d
    /\ comments d' = comments d /\ viewCount d' = viewCount d.
Proof.
  intros Hv Hs Hd.
  destruct (AdminFacts.findByIdAndUpdate_found id (statusUpdate b now) now
              docs d Hd) as (docs' & Hf & _).
  exists (applyUpdate (statusUpdate b now) now d), docs'. split.
  { unfold put_admin_issue_status. rewrite Hv, Hf. reflexivity. }
  unfold applyUpdate, statusUpdate. rewrite Hs. simpl.
  repeat split.
  - intros H1 H2. rewrite !bool_decide_eq_false_2 by assumption. reflexivity.
  - intros Hr n Hn Hne.
    replace (bool_decide (s = "Resolved") || bool_decide (s = "Closed"))
      with true
      by (destruct Hr as [-> | ->]; reflexivity).
    rewrite Hn. unfold present. rewrite bool_decide_eq_false_2 by exact Hne.
    reflexivity.
  - intros [-> | ->];
      destruct (bool_decide (s = "Resolved") || bool_decide (s = "Closed"));
      reflexivity.
  - intros a Ha. rewrite Ha. unfold present.
    rewrite bool_decide_eq_false_2; [reflexivity|].
    apply isMongoId_not_empty. unfold validStatusBody in Hv.
    rewrite Hs, Ha in Hv. apply andb_true_iff in Hv. apply Hv.
  - intros ->. reflexivity.
Qed.

Lemma X20_status_update_keeps_notes_unless_resolving_witness :
  exists d' docs',
    put_admin_issue_status id40
      (mkStatusBody (Some "In Progress") None (Some "Crew on site")) 6000
      (Some sampleDocs)
    = (Json 200 (IssueBody "Issue status updated successfully" d'),
       Some docs')
    /\ resolutionNotes d' = None.
Proof.
  destruct (X20_status_update_keeps_notes_unless_resolving id40
              (mkStatusBody (Some "In Progress") None (Some "Crew on site"))
              "In Progress" 6000 sampleDocs issueAt40)
    as (d' & docs' & H & Hn & _).
  - vm_compute. reflexivity.
  - reflexivity.
  - reflexivity.
  - exists d', docs'. split; [exact H|].
    apply Hn; discriminate.
Defined.













End AdminMore.
